(** * Lamela Pediatrics: session manager and role-scoped reads

    A shallow embedding of the client-side session state machine
    ([AuthProvider], [useAuth]) and of the queries the dashboard, patients
    and reports screens build, together with the properties the
    specification states about them.

    The repository carries two revisions of the auth context:
    - [src/contexts/AuthContext.tsx]  (module [AuthContext]);
    - [src/unnamed/part_004]          (module [Part004]), which adds the
      [mounted] ref, [resetPasswordForEmail] and the trigger-based sign-up.
    Both are embedded, over one shared model of the React cells and of the
    pending asynchronous work. *)

From Stdlib Require Import ZArith Lia.
From stdpp Require Import base option list gmap strings sorting.

Open Scope string_scope.

(** ** Data model ([src/app/(tabs)/patients.tsx], database types) *)

Inductive Role := admin | doctor | staff | parent.

#[global] Instance Role_eq_dec : EqDecision Role.
Proof. solve_decision. Defined.

(** [interface User]: the application-level profile row. *)
Module User.
Record t := mk {
    id : string;
    email : string;
    role : Role;
    first_name : string;
    last_name : string;
    phone : option string;
    created_at : string;
    updated_at : string }.
End User.

(** [Partial<User>]: every property may be absent. *)
Module PartialUser.
Record t := mk {
    id : option string;
    email : option string;
    role : option Role;
    first_name : option string;
    last_name : option string;
    phone : option string;
    created_at : option string;
    updated_at : option string }.

(** [{ ...base, ...over }]: properties of [over] win. *)
Definition spread (base over : t) : t :=
    {| id := id over ∪ id base;
       email := email over ∪ email base;
       role := role over ∪ role base;
       first_name := first_name over ∪ first_name base;
       last_name := last_name over ∪ last_name base;
       phone := phone over ∪ phone base;
       created_at := created_at over ∪ created_at base;
       updated_at := updated_at over ∪ updated_at base |}.
End PartialUser.

(** The identity provider's account record, of which the client reads [id]. *)
Module AuthUser.
Record t := mk { id : string }.
End AuthUser.

(** [Session] of the provider: an opaque token bundle with its subject. *)
Module Session.
Record t := mk { access_token : string; user : AuthUser.t }.
End Session.

(** [session?.user] *)
Definition session_user (session : option Session.t) : option AuthUser.t :=
  Session.user <$> session.

(** The three [useState] cells of [AuthProvider]. *)
Record AuthState := mkAuthState {
  session : option Session.t;
  user : option User.t;
  loading : bool }.

(** ** Requests that leave the client *)

Record SignUpData := mkSignUpData {
  sd_first_name : option string;
  sd_last_name : option string;
  sd_phone : option string;
  sd_role : Role }.

Inductive Request :=
| GetSession
| OnAuthStateChange
| Unsubscribe
| SelectSingle (table column value : string)
| Insert (table : string) (row : PartialUser.t)
| SignInWithPassword (email password : string)
| SignUp (email password : string) (options_data : option SignUpData)
| ResetPasswordForEmail (email redirectTo : string)
| SignOut
| SetTimeout (ms : Z).

(** How an awaited promise settles. *)
Inductive Settled (A : Type) :=
| Fulfilled (a : A)
| Rejected (reason : string).
Arguments Fulfilled {A} a.
Arguments Rejected {A} reason.

(** [{ data, error }] of [.single()]. *)
Record SingleResponse := mkSingleResponse {
  data : option User.t;
  error : option string }.

(** What [.single()] answers for the rows that matched: exactly one row is
    the data, anything else is an error (PostgREST code PGRST116). *)
Definition single (rows : list User.t) : SingleResponse :=
  match rows with
  | [row] => {| data := Some row; error := None |}
  | _ => {| data := None;
            error := Some "JSON object requested, multiple (or no) rows returned" |}
  end.

(** ** The world a continuation runs in *)

Record World := mkWorld {
  state : AuthState;                  (* session, user, loading *)
  mounted : bool;                     (* the component is mounted; part_004
                                         mirrors it in mounted.current *)
  subscribed : bool;                  (* the change subscription is registered *)
  getSession_pending : bool;          (* getSession() has not resolved yet *)
  profile_fetches : gmap nat string;  (* suspended loadUserProfile calls *)
  next_ticket : nat;
  console : list string;              (* console.error lines, newest first *)
  requests : list Request }.          (* requests issued, newest first *)

Definition with_state (f : AuthState → AuthState) (w : World) : World :=
  mkWorld (f (state w)) (mounted w) (subscribed w) (getSession_pending w)
          (profile_fetches w) (next_ticket w) (console w) (requests w).
Definition with_mounted (b : bool) (w : World) : World :=
  mkWorld (state w) b (subscribed w) (getSession_pending w)
          (profile_fetches w) (next_ticket w) (console w) (requests w).
Definition with_subscribed (b : bool) (w : World) : World :=
  mkWorld (state w) (mounted w) b (getSession_pending w)
          (profile_fetches w) (next_ticket w) (console w) (requests w).
Definition with_getSession_pending (b : bool) (w : World) : World :=
  mkWorld (state w) (mounted w) (subscribed w) b
          (profile_fetches w) (next_ticket w) (console w) (requests w).
Definition with_profile_fetches (f : gmap nat string → gmap nat string)
    (w : World) : World :=
  mkWorld (state w) (mounted w) (subscribed w) (getSession_pending w)
          (f (profile_fetches w)) (next_ticket w) (console w) (requests w).
Definition with_next_ticket (n : nat) (w : World) : World :=
  mkWorld (state w) (mounted w) (subscribed w) (getSession_pending w)
          (profile_fetches w) n (console w) (requests w).
Definition with_console (f : list string → list string) (w : World) : World :=
  mkWorld (state w) (mounted w) (subscribed w) (getSession_pending w)
          (profile_fetches w) (next_ticket w) (f (console w)) (requests w).
Definition with_requests (f : list Request → list Request) (w : World) : World :=
  mkWorld (state w) (mounted w) (subscribed w) (getSession_pending w)
          (profile_fetches w) (next_ticket w) (console w) (f (requests w)).

(** ** A state-and-exception monad for the bodies of the callbacks *)

Inductive Completion (A : Type) :=
| Normal (a : A)
| Throw (e : string).
Arguments Normal {A} a.
Arguments Throw {A} e.

Definition M (A : Type) : Type := World → Completion A * World.

#[global] Instance M_ret : MRet M := λ A a w, (Normal a, w).
#[global] Instance M_bind : MBind M := λ A B f m w,
  match m w with
  | (Normal a, w') => f a w'
  | (Throw e, w') => (Throw e, w')
  end.

Definition throw {A} (e : string) : M A := λ w, (Throw e, w).

(** [try { body } catch (e) { handler }] *)
Definition try_catch {A} (body : M A) (handler : string → M A) : M A := λ w,
  match body w with
  | (Normal a, w') => (Normal a, w')
  | (Throw e, w') => handler e w'
  end.

(** [try { body } catch (e) { handler } finally { fin }] *)
Definition try_catch_finally (body : M unit) (handler : string → M unit)
    (fin : M unit) : M unit := λ w,
  match try_catch body handler w with
  | (c, w') =>
      match fin w' with
      | (Normal _, w'') => (c, w'')
      | (Throw e, w'') => (Throw e, w'')
      end
  end.

(** [if (c) { body }] *)
Definition when (c : M bool) (body : M unit) : M unit :=
  b ← c; if b : bool then body else mret ().

(** The world a body leaves behind. *)
Definition exec {A} (m : M A) (w : World) : World := (m w).2.

(** The [useState] setters.  React drops the state update of a component
    that has been unmounted: the call returns and no cell changes. *)
Definition setSession (s : option Session.t) : M unit := λ w,
  (Normal (),
   if mounted w
   then with_state (λ a, mkAuthState s (user a) (loading a)) w
   else w).
Definition setUser (u : option User.t) : M unit := λ w,
  (Normal (),
   if mounted w
   then with_state (λ a, mkAuthState (session a) u (loading a)) w
   else w).
Definition setLoading (b : bool) : M unit := λ w,
  (Normal (),
   if mounted w
   then with_state (λ a, mkAuthState (session a) (user a) b) w
   else w).

(** The [mounted] ref of part_004: [true] from [useRef(true)] and the mount
    effect, [false] from the effect's cleanup, which runs when the component
    is unmounted; the ref and the component's own life coincide. *)
Definition mounted_current : M bool := λ w, (Normal (mounted w), w).
Definition set_mounted_current (b : bool) : M unit := λ w,
  (Normal (), with_mounted b w).

Definition console_error (line : string) : M unit := λ w,
  (Normal (), with_console (cons line) w).
Definition issue (r : Request) : M unit := λ w,
  (Normal (), with_requests (cons r) w).

(** [await] of a call whose answer is known: the request leaves, the
    promise settles, a rejection is thrown at the [await]. *)
Definition resume {A} (reply : Settled A) : M A :=
  match reply with
  | Fulfilled a => mret a
  | Rejected e => throw e
  end.
Definition await {A} (r : Request) (reply : Settled A) : M A :=
  issue r;; resume reply.

(** [await] of the profile query inside [loadUserProfile]: the function is
    suspended under a fresh ticket until the row store answers. *)
Definition suspend_profile_fetch (userId : string) : M unit := λ w,
  (Normal (),
   with_next_ticket (S (next_ticket w))
     (with_profile_fetches (<[next_ticket w := userId]>) w)).

(** [getSession()] has been called and [.then] registered; the change
    subscription has been registered or released. *)
Definition register_getSession : M unit := λ w,
  (Normal (), with_getSession_pending true w).
Definition set_subscribed (b : bool) : M unit := λ w,
  (Normal (), with_subscribed b w).

(** The result of [signIn], [signUp] and [resetPasswordForEmail]:
    [{}] or [{ error }]. *)
Definition OpResult : Type := option string.

(** [{ data: { user }, error }] of [supabase.auth.signUp]. *)
Record SignUpResponse := mkSignUpResponse {
  su_user : option AuthUser.t;
  su_error : option string }.

(** What the four callbacks of an [AuthProvider] revision are. *)
Record Provider := mkProvider {
  effect_body : M unit;                               (* useEffect(() => {...}, []) *)
  getSession_then : option Session.t → M unit;        (* .then(({data:{session}}) => ...) *)
  onAuthStateChange_callback : option Session.t → M unit;
  loadUserProfile_resume : Settled SingleResponse → M unit;
  effect_cleanup : M unit }.

(** ** [src/unnamed/part_004] *)
Module Part004.

(** [loadUserProfile] up to its [await]. *)
Definition loadUserProfile (userId : string) : M unit :=
  issue (SelectSingle "user_profiles" "id" userId);;
  suspend_profile_fetch userId.

(** [loadUserProfile] from its [await] on. *)
Definition loadUserProfile_resume (reply : Settled SingleResponse) : M unit :=
  try_catch_finally
    (r ← resume reply;
     match error r with
     | Some e => throw e
     | None => when mounted_current (setUser (data r))
     end)
    (λ e, console_error ("Error loading user profile: " +:+ e))
    (when mounted_current (setLoading false)).

Definition getSession_then (session : option Session.t) : M unit :=
  when mounted_current (setSession session);;
  match session_user session with
  | Some u => loadUserProfile (AuthUser.id u)
  | None => when mounted_current (setLoading false)
  end.

Definition onAuthStateChange_callback (session : option Session.t) : M unit :=
  when mounted_current (setSession session);;
  match session_user session with
  | Some u => loadUserProfile (AuthUser.id u)
  | None => when mounted_current (setUser None;; setLoading false)
  end.

Definition effect_body : M unit :=
  set_mounted_current true;;
  issue GetSession;;
  register_getSession;;
  issue OnAuthStateChange;;
  set_subscribed true.

Definition effect_cleanup : M unit :=
  set_mounted_current false;;
  issue Unsubscribe;;
  set_subscribed false.

Definition provider : Provider :=
  mkProvider effect_body getSession_then onAuthStateChange_callback
             loadUserProfile_resume effect_cleanup.

Definition signIn (email password : string) (reply : Settled (option string))
    : M OpResult :=
  try_catch
    (error ← await (SignInWithPassword email password) reply;
     match error with
     | Some message => mret (Some message)
     | None => mret None
     end)
    (λ _, mret (Some "An unexpected error occurred")).

Definition signUp (email password : string) (userData : PartialUser.t)
    (reply : Settled SignUpResponse) : M OpResult :=
  try_catch
    (r ← await
       (SignUp email password
          (Some {| sd_first_name := PartialUser.first_name userData;
                   sd_last_name := PartialUser.last_name userData;
                   sd_phone := PartialUser.phone userData;
                   sd_role := default parent (PartialUser.role userData) |}))
       reply;
     match su_error r with
     | Some message => mret (Some message)
     | None =>
         match su_user r with
         | Some _ => issue (SetTimeout 1000)
         | None => mret ()
         end;;
         mret None
     end)
    (λ _, mret (Some "An unexpected error occurred")).

Definition signOut (reply : Settled unit) : M unit :=
  await SignOut reply.

Definition resetPasswordForEmail (email : string)
    (reply : Settled (option string)) : M OpResult :=
  try_catch
    (error ← await
       (ResetPasswordForEmail email
          "https://localhost:8081/(auth)/reset-password") reply;
     match error with
     | Some message => mret (Some message)
     | None => mret None
     end)
    (λ _, mret (Some "An unexpected error occurred")).

End Part004.

(** ** [src/contexts/AuthContext.tsx] *)
Module AuthContext.

Definition loadUserProfile (userId : string) : M unit :=
  issue (SelectSingle "users" "id" userId);;
  suspend_profile_fetch userId.

Definition loadUserProfile_resume (reply : Settled SingleResponse) : M unit :=
  try_catch_finally
    (r ← resume reply;
     match error r with
     | Some e => throw e
     | None => setUser (data r)
     end)
    (λ e, console_error ("Error loading user profile: " +:+ e))
    (setLoading false).

Definition getSession_then (session : option Session.t) : M unit :=
  setSession session;;
  match session_user session with
  | Some u => loadUserProfile (AuthUser.id u)
  | None => setLoading false
  end.

Definition onAuthStateChange_callback (session : option Session.t) : M unit :=
  setSession session;;
  match session_user session with
  | Some u => loadUserProfile (AuthUser.id u)
  | None => setUser None;; setLoading false
  end.

Definition effect_body : M unit :=
  issue GetSession;;
  register_getSession;;
  issue OnAuthStateChange;;
  set_subscribed true.

Definition effect_cleanup : M unit :=
  issue Unsubscribe;;
  set_subscribed false.

Definition provider : Provider :=
  mkProvider effect_body getSession_then onAuthStateChange_callback
             loadUserProfile_resume effect_cleanup.

Definition signIn (email password : string) (reply : Settled (option string))
    : M OpResult :=
  try_catch
    (error ← await (SignInWithPassword email password) reply;
     match error with
     | Some message => mret (Some message)
     | None => mret None
     end)
    (λ _, mret (Some "An unexpected error occurred")).

(** [insert_reply] is what the row store answers to the profile insert
    ([{ error: profileError }]), should the insert be sent. *)
Definition signUp (email password : string) (userData : PartialUser.t)
    (reply : Settled SignUpResponse) (insert_reply : Settled (option string))
    : M OpResult :=
  try_catch
    (r ← await (SignUp email password None) reply;
     match su_error r with
     | Some message => mret (Some message)
     | None =>
         match su_user r with
         | Some u =>
             profileError ← await
               (Insert "users"
                  (PartialUser.spread
                     (PartialUser.mk (Some (AuthUser.id u)) (Some email)
                                     None None None None None None)
                     userData))
               insert_reply;
             match profileError with
             | Some message => mret (Some message)
             | None => mret None
             end
         | None => mret None
         end
     end)
    (λ _, mret (Some "An unexpected error occurred")).

Definition signOut (reply : Settled unit) : M unit :=
  await SignOut reply.

End AuthContext.

(** ** The event loop around a provider *)

Inductive Event :=
| GetSessionResolved (s : option Session.t)
| AuthStateChange (s : option Session.t)
| ProfileSettled (ticket : nat) (reply : Settled SingleResponse)
| Unmount.

(** The component before its effect runs: [useState(null)],
    [useState(null)], [useState(true)], [useRef(true)]. *)
Definition initial_state : AuthState := mkAuthState None None true.
Definition first_render : World :=
  mkWorld initial_state true false false ∅ 0 [] [].

(** After the mount effect has run. *)
Definition init (P : Provider) : World := exec (effect_body P) first_render.

(** One event delivered by the runtime; [None] when the event cannot occur
    (nothing of that kind is pending).  [GetSessionResolved] is the
    fulfilment of [getSession()], with a session or with null; a profile
    fetch may be fulfilled or rejected.  [Unmount] runs the effect's cleanup
    and leaves the component unmounted. *)
Definition step (P : Provider) (w : World) (e : Event) : option World :=
  match e with
  | GetSessionResolved s =>
      if getSession_pending w
      then Some (exec (getSession_then P s) (with_getSession_pending false w))
      else None
  | AuthStateChange s =>
      if subscribed w
      then Some (exec (onAuthStateChange_callback P s) w)
      else None
  | ProfileSettled ticket reply =>
      match profile_fetches w !! ticket with
      | Some _ =>
          Some (exec (loadUserProfile_resume P reply)
                     (with_profile_fetches (delete ticket) w))
      | None => None
      end
  | Unmount =>
      if subscribed w
      then Some (with_mounted false (exec (effect_cleanup P) w))
      else None
  end.

(** [getSession()] rejects: [.then] was given no rejection handler, so no
    continuation of the provider runs and the promise is no longer pending. *)
Definition getSession_rejected (w : World) : World :=
  with_getSession_pending false w.

Fixpoint run (P : Provider) (w : World) (es : list Event) : option World :=
  match es with
  | [] => Some w
  | e :: es' =>
      match step P w e with
      | Some w' => run P w' es'
      | None => None
      end
  end.

Definition reachable (P : Provider) (w : World) : Prop :=
  ∃ es, run P (init P) es = Some w.

(** ** [useAuth] and the context value *)

(** [useContext]: the value of the nearest enclosing provider, innermost
    first, or the default the context was created with ([undefined]). *)
Definition useContext {V : Type} (enclosing : list V) : option V :=
  head enclosing.

(** The cells as the current render reads them. *)
Definition current_session (w : World) : option Session.t := session (state w).
Definition current_user (w : World) : option User.t := user (state w).
Definition current_loading (w : World) : bool := loading (state w).

Module Part004Context.

(** [AuthContextType] of part_004. *)
Record AuthContextType := mk {
  session : option Session.t;
  user : option User.t;
  loading : bool;
  signIn : string → string → Settled (option string) → M OpResult;
  signUp : string → string → PartialUser.t → Settled SignUpResponse → M OpResult;
  resetPasswordForEmail : string → Settled (option string) → M OpResult;
  signOut : Settled unit → M unit }.

(** The [value] prop [AuthProvider] renders its children under. *)
Definition value (w : World) : AuthContextType :=
  mk (current_session w) (current_user w) (current_loading w)
     Part004.signIn Part004.signUp Part004.resetPasswordForEmail
     Part004.signOut.

(** The scope of a consumer rendered among the children of [AuthProvider]. *)
Definition AuthProvider (w : World) (enclosing : list AuthContextType)
    : list AuthContextType :=
  value w :: enclosing.

Definition useAuth (enclosing : list AuthContextType)
    : string + AuthContextType :=
  match useContext enclosing with
  | None => inl "useAuth must be used within an AuthProvider"
  | Some context => inr context
  end.

End Part004Context.

Module AuthContextContext.

(** [AuthContextType] of contexts/AuthContext.tsx. *)
Record AuthContextType := mk {
  session : option Session.t;
  user : option User.t;
  loading : bool;
  signIn : string → string → Settled (option string) → M OpResult;
  signUp : string → string → PartialUser.t → Settled SignUpResponse →
           Settled (option string) → M OpResult;
  signOut : Settled unit → M unit }.

Definition value (w : World) : AuthContextType :=
  mk (current_session w) (current_user w) (current_loading w)
     AuthContext.signIn AuthContext.signUp AuthContext.signOut.

Definition AuthProvider (w : World) (enclosing : list AuthContextType)
    : list AuthContextType :=
  value w :: enclosing.

Definition useAuth (enclosing : list AuthContextType)
    : string + AuthContextType :=
  match useContext enclosing with
  | None => inl "useAuth must be used within an AuthProvider"
  | Some context => inr context
  end.

End AuthContextContext.

(** ** The row store and the query builder *)

(** A column value.  Timestamps ([created_at], [appointment_date]) are
    carried as milliseconds since the epoch. *)
Inductive Value :=
| VStr (s : string)
| VNum (n : Z)
| VBool (b : bool)
| VNull
| VUndefined.

#[global] Instance Value_eq_dec : EqDecision Value.
Proof. solve_decision. Defined.

(** A row is the object the client receives: column name to value. *)
Abbreviation Row := (gmap string Value).

(** The tables as the server lets this client see them. *)
Abbreviation Database := (gmap string (list Row)).

Inductive Filter :=
| FEq (column : string) (v : Value)
| FGte (column : string) (bound : Z)
| FLt (column : string) (bound : Z).

Record Query := mkQuery {
  q_table : string;
  q_columns : string;
  q_filters : list Filter;
  q_order : option (string * bool) }.    (* column, ascending *)

(** The chain [supabase.from(t).select(c).eq(..).gte(..).lt(..).order(..)]. *)
Module supabase.
Definition from (table : string) : Query := mkQuery table "*" [] None.
Definition select (columns : string) (q : Query) : Query :=
  mkQuery (q_table q) columns (q_filters q) (q_order q).
Definition eq (column : string) (v : Value) (q : Query) : Query :=
  mkQuery (q_table q) (q_columns q) (q_filters q ++ [FEq column v]) (q_order q).
Definition gte (column : string) (bound : Z) (q : Query) : Query :=
  mkQuery (q_table q) (q_columns q) (q_filters q ++ [FGte column bound]) (q_order q).
Definition lt (column : string) (bound : Z) (q : Query) : Query :=
  mkQuery (q_table q) (q_columns q) (q_filters q ++ [FLt column bound]) (q_order q).
Definition order (column : string) (ascending : bool) (q : Query) : Query :=
  mkQuery (q_table q) (q_columns q) (q_filters q) (Some (column, ascending)).
End supabase.

Notation "q '|>' f" := (f q) (at level 45, left associativity, only parsing).

Definition matches (f : Filter) (r : Row) : bool :=
  match f with
  | FEq c v => bool_decide (r !! c = Some v)
  | FGte c b =>
      match r !! c with
      | Some (VNum x) => bool_decide (b ≤ x)%Z
      | _ => false
      end
  | FLt c b =>
      match r !! c with
      | Some (VNum x) => bool_decide (x < b)%Z
      | _ => false
      end
  end.

Definition satisfies (q : Query) (r : Row) : Prop :=
  Forall (λ f, matches f r = true) (q_filters q).

#[global] Instance satisfies_dec q r : Decision (satisfies q r).
Proof. unfold satisfies. apply _. Defined.

Definition sort_key (column : string) (r : Row) : Z :=
  match r !! column with
  | Some (VNum x) => x
  | _ => 0%Z
  end.

Definition ascending (column : string) (a b : Row) : Prop :=
  (sort_key column a ≤ sort_key column b)%Z.
Definition descending (column : string) (a b : Row) : Prop :=
  (sort_key column b ≤ sort_key column a)%Z.

#[global] Instance ascending_dec c a b : Decision (ascending c a b).
Proof. unfold ascending. apply _. Defined.
#[global] Instance descending_dec c a b : Decision (descending c a b).
Proof. unfold descending. apply _. Defined.

Definition sorted_by (o : option (string * bool)) (rows : list Row) : list Row :=
  match o with
  | None => rows
  | Some (c, true) => merge_sort (ascending c) rows
  | Some (c, false) => merge_sort (descending c) rows
  end.

Definition rows_of (db : Database) (table : string) : list Row :=
  default [] (db !! table).

(** The [data] the row store answers a query with. *)
Definition execute (db : Database) (q : Query) : list Row :=
  sorted_by (q_order q) (filter (satisfies q) (rows_of db (q_table q))).

(** [{ data, error }] of a query that selects rows. *)
Record RowsResponse := mkRowsResponse {
  rows_data : option (list Row);
  rows_error : option string }.

(** The answer of the row store when it serves [q] from the tables [db]. *)
Definition answer (db : Database) (q : Query) : Settled RowsResponse :=
  Fulfilled {| rows_data := Some (execute db q); rows_error := None |}.

(** [user?.role === r] and [user?.id] *)
Definition role_is (user : option User.t) (r : Role) : bool :=
  bool_decide (User.role <$> user = Some r).
Definition user_id (user : option User.t) : Value :=
  match user with
  | Some u => VStr (User.id u)
  | None => VUndefined
  end.

(** ** [src/app/(tabs)/patients.tsx] *)
Module PatientsScreen.

(** The query [loadPatients] awaits. *)
Definition loadPatients_query (user : option User.t) : Query :=
  let query :=
    supabase.from "babies"
    |> supabase.select "*, assigned_doctor:users!babies_assigned_doctor_id_fkey (first_name, last_name), vital_records (weight, height, temperature, recorded_at)"
    |> supabase.order "created_at" false in
  if role_is user doctor
  then query |> supabase.eq "assigned_doctor_id" (user_id user)
  else query.

(** The babies behind the rows handed to [setPatients] (each row is
    extended with [latest_vitals] before it is stored). *)
Definition loadPatients (db : Database) (user : option User.t) : list Row :=
  execute db (loadPatients_query user).

End PatientsScreen.

(** ** [src/unnamed/part_003], the reports screen *)
Module ReportsScreen.

Definition babies_query : Query :=
  supabase.from "babies" |> supabase.select "*".
Definition newPatients_query (startOfMonth : Z) : Query :=
  supabase.from "babies" |> supabase.select "*"
  |> supabase.gte "created_at" startOfMonth.
Definition weeklyAppointments_query (startOfWeek : Z) : Query :=
  supabase.from "appointments" |> supabase.select "*"
  |> supabase.gte "appointment_date" startOfWeek.

(** The counts of [ReportStats]. *)
Record ReportCounts := mkReportCounts {
  totalPatients : nat;
  newPatientsThisMonth : nat;
  appointmentsThisWeek : nat;
  activeMonitoring : nat }.

(** [useState] of the screen: all counts zero. *)
Definition no_stats : ReportCounts := mkReportCounts 0 0 0 0.

(** [data?.length || 0] *)
Definition length_or_0 (data : option (list Row)) : nat :=
  default 0 (length <$> data).

(** [loadReportData]: the three queries are awaited one after the other,
    each with an answer of its own; only [data] is read of an answer, its
    [error] never.  A rejected [await] is caught: the line goes to the
    console and [setStats] is not reached, so the stats stay [previous].
    [user] is in scope of the function and is not read by it.  The result
    is the stats of the screen afterwards and what went to the console. *)
Definition loadReportData (user : option User.t)
    (babies newPatients weeklyAppointments : Settled RowsResponse)
    (previous : ReportCounts) : ReportCounts * list string :=
  match babies with
  | Rejected e => (previous, ["Error loading report data: " +:+ e])
  | Fulfilled babies =>
      match newPatients with
      | Rejected e => (previous, ["Error loading report data: " +:+ e])
      | Fulfilled newPatients =>
          match weeklyAppointments with
          | Rejected e => (previous, ["Error loading report data: " +:+ e])
          | Fulfilled weeklyAppointments =>
              (mkReportCounts
                 (length_or_0 (rows_data babies))
                 (length_or_0 (rows_data newPatients))
                 (length_or_0 (rows_data weeklyAppointments))
                 (length_or_0 (rows_data babies)),
               [])
          end
      end
  end.

End ReportsScreen.

(** ** [src/app/(tabs)/index.tsx], the dashboard *)
Module DashboardScreen.

Record DashboardStats := mkDashboardStats {
  totalBabies : nat;
  todayAppointments : nat;
  unreadMessages : nat;
  activeMonitoring : nat }.

Definition parent_babies_query (user : option User.t) : Query :=
  supabase.from "parent_babies" |> supabase.select "baby_id"
  |> supabase.eq "parent_id" (user_id user).
Definition parent_appointments_query (user : option User.t)
    (today tomorrow : Z) : Query :=
  supabase.from "appointments" |> supabase.select "*"
  |> supabase.eq "parent_id" (user_id user)
  |> supabase.gte "appointment_date" today
  |> supabase.lt "appointment_date" tomorrow.
Definition unread_messages_query (user : option User.t) : Query :=
  supabase.from "messages" |> supabase.select "*"
  |> supabase.eq "recipient_id" (user_id user)
  |> supabase.eq "is_read" (VBool false).

Definition loadParentStats (db : Database) (user : option User.t)
    (today tomorrow : Z) : DashboardStats :=
  let babies := execute db (parent_babies_query user) in
  let appointments :=
    execute db (parent_appointments_query user today tomorrow) in
  let messages := execute db (unread_messages_query user) in
  mkDashboardStats (length babies) (length appointments) (length messages)
                   (length babies).

Definition staff_babies_query : Query :=
  supabase.from "babies" |> supabase.select "*".
Definition staff_appointments_query (today tomorrow : Z) : Query :=
  supabase.from "appointments" |> supabase.select "*"
  |> supabase.gte "appointment_date" today
  |> supabase.lt "appointment_date" tomorrow.

Definition loadStaffStats (db : Database) (user : option User.t)
    (today tomorrow : Z) : DashboardStats :=
  let babies := execute db staff_babies_query in
  let appointments := execute db (staff_appointments_query today tomorrow) in
  let unreadCount :=
    if role_is user doctor
    then length (execute db (unread_messages_query user))
    else 0 in
  mkDashboardStats (length babies) (length appointments) unreadCount
                   (length babies).

Definition loadDashboardData (db : Database) (user : option User.t)
    (today tomorrow : Z) : DashboardStats :=
  if role_is user parent
  then loadParentStats db user today tomorrow
  else loadStaffStats db user today tomorrow.

(** The queries [loadDashboardData] sends for this user. *)
Definition babies_read (user : option User.t) : Query :=
  if role_is user parent then parent_babies_query user else staff_babies_query.
Definition appointments_read (today tomorrow : Z) (user : option User.t)
    : Query :=
  if role_is user parent
  then parent_appointments_query user today tomorrow
  else staff_appointments_query today tomorrow.

End DashboardScreen.

(** ** [src/app/_layout.tsx], the appointments and babies screens *)
Module AppointmentsScreen.

Definition loadAppointments_query (user : option User.t) : Query :=
  let query :=
    supabase.from "appointments"
    |> supabase.select "*, babies (*), users!appointments_doctor_id_fkey (*), parents:users!appointments_parent_id_fkey (*)"
    |> supabase.order "appointment_date" true in
  if role_is user parent
  then query |> supabase.eq "parent_id" (user_id user)
  else if role_is user doctor
  then query |> supabase.eq "doctor_id" (user_id user)
  else query.

End AppointmentsScreen.

Module BabiesScreen.

(** A parent reads the association rows (with the baby embedded in each);
    everybody else reads the babies table. *)
Definition loadBabies_query (user : option User.t) : Query :=
  if role_is user parent
  then supabase.from "parent_babies" |> supabase.select "baby_id, babies (*)"
       |> supabase.eq "parent_id" (user_id user)
  else supabase.from "babies" |> supabase.select "*"
       |> supabase.order "created_at" false.

End BabiesScreen.

(** ** [src/app/(tabs)/growth.tsx] *)
Module GrowthScreen.

(** Only a parent's screen reads anything. *)
Definition loadGrowthData_query (user : option User.t) : option Query :=
  if role_is user parent
  then Some (supabase.from "parent_babies"
             |> supabase.select "baby_id, babies (*, vital_records (*))"
             |> supabase.eq "parent_id" (user_id user))
  else None.

End GrowthScreen.

(** ** [src/unnamed/part_002], the message inbox *)
Module MessagesScreen.

Definition loadMessages_query (user : option User.t) : Query :=
  supabase.from "messages"
  |> supabase.select "*, sender:users!messages_sender_id_fkey (first_name, last_name, role), baby:babies (first_name, last_name)"
  |> supabase.eq "recipient_id" (user_id user)
  |> supabase.order "sent_at" false.

End MessagesScreen.

(** ** Properties of worlds, events and queries used in the statements *)

(** The two revisions under study. *)
Definition known (P : Provider) : Prop :=
  P = AuthContext.provider ∨ P = Part004.provider.

(** [user != null] implies [session != null]. *)
Definition consistent (a : AuthState) : Prop :=
  is_Some (user a) → is_Some (session a).

(** A profile answer carrying a row. *)
Definition found (u : User.t) : Settled SingleResponse :=
  Fulfilled (mkSingleResponse (Some u) None).

(** The error a profile fetch fails with, if it fails: a rejected promise
    (network error) or an [error] in the answer (no row, several rows). *)
Definition failure (reply : Settled SingleResponse) : option string :=
  match reply with
  | Rejected e => Some e
  | Fulfilled r => error r
  end.

(** Events that arrive out of order with respect to the session they
    belong to: a profile row delivered while no session is published, and
    the initial resolution reporting no session after a profile has been
    published. *)
Definition out_of_order (w : World) (e : Event) : bool :=
  match e with
  | ProfileSettled _ (Fulfilled r) =>
      bool_decide (error r = None) && bool_decide (is_Some (data r))
      && bool_decide (session (state w) = None)
  | GetSessionResolved None => bool_decide (is_Some (user (state w)))
  | _ => false
  end.

(** [run], refusing out-of-order events. *)
Fixpoint run_in_order (P : Provider) (w : World) (es : list Event)
    : option World :=
  match es with
  | [] => Some w
  | e :: es' =>
      if out_of_order w e then None
      else match step P w e with
           | Some w' => run_in_order P w' es'
           | None => None
           end
  end.

(** No asynchronous work of the provider is outstanding. *)
Definition settled (w : World) : Prop :=
  getSession_pending w = false ∧ profile_fetches w = ∅.

(** Every operation leaves all of the world but the request log as it was. *)
Definition frame (w w' : World) : Prop :=
  state w' = state w ∧ mounted w' = mounted w ∧ subscribed w' = subscribed w
  ∧ getSession_pending w' = getSession_pending w
  ∧ profile_fetches w' = profile_fetches w ∧ console w' = console w.

(** While the provider is mounted, [loading] is false unless some
    asynchronous work is still outstanding. *)
Definition loading_accounted (w : World) : Prop :=
  mounted w = true →
  loading (state w) = false ∨ getSession_pending w = true
  ∨ profile_fetches w ≠ ∅.

(** A read path is scoped by [column] for role [r]: whatever the tables
    hold, every row it returns to a user of that role carries the user's
    id in that column. *)
Definition scoped_by (column : string) (r : Role)
    (read : option User.t → Query) : Prop :=
  ∀ (db : Database) (u : User.t) (row : Row),
    User.role u = r →
    row ∈ execute db (read (Some u)) →
    row !! column = Some (VStr (User.id u)).

(** A read path returns the whole [table] to the users [who] selects. *)
Definition unfiltered_for (who : option User.t → bool) (table : string)
    (read : option User.t → Query) : Prop :=
  ∀ (db : Database) (user : option User.t) (row : Row),
    who user = true →
    (row ∈ execute db (read user) ↔ row ∈ rows_of db table).

(** ** Sample data *)

Definition session_u1 : Session.t := Session.mk "token-1" (AuthUser.mk "u1").
Definition session_u2 : Session.t := Session.mk "token-2" (AuthUser.mk "u2").
Definition profile_u1 : User.t :=
  User.mk "u1" "a@b.com" parent "Ana" "Lopez" None "2025-01-01" "2025-01-01".
Definition profile_u2 : User.t :=
  User.mk "u2" "c@d.com" parent "Cai" "Diaz" None "2025-01-02" "2025-01-02".
Definition doctor_d1 : User.t :=
  User.mk "d1" "d1@clinic.org" doctor "Dana" "Uno" None "2025-01-01" "2025-01-01".

Definition baby_b1 : Row :=
  {[ "id" := VStr "b1"; "assigned_doctor_id" := VStr "d1"; "created_at" := VNum 10 ]}.
Definition baby_b2 : Row :=
  {[ "id" := VStr "b2"; "assigned_doctor_id" := VStr "d2"; "created_at" := VNum 20 ]}.
Definition clinic : Database := {[ "babies" := [baby_b1; baby_b2] ]}.

Definition new_parent : PartialUser.t :=
  PartialUser.mk None None None (Some "Ana") (Some "Lopez") None None None.

(** ** Comparing the two revisions, and completions *)

(** Two worlds that differ at most in the requests they have logged, both
    with a live [mounted] flag. *)
Definition agree (a b : World) : Prop :=
  state a = state b ∧ mounted a = true ∧ mounted b = true
  ∧ subscribed a = subscribed b
  ∧ getSession_pending a = getSession_pending b
  ∧ profile_fetches a = profile_fetches b
  ∧ next_ticket a = next_ticket b ∧ console a = console b.

Definition agree_opt (a b : option World) : Prop :=
  match a, b with
  | Some x, Some y => agree x y
  | None, None => True
  | _, _ => False
  end.

Definition is_Unmount (e : Event) : bool :=
  match e with Unmount => true | _ => false end.

(** No callback of the provider lets an exception escape. *)
Definition never_throws (P : Provider) : Prop :=
  ∀ w s reply,
    (effect_body P w).1 = Normal ()
    ∧ (getSession_then P s w).1 = Normal ()
    ∧ (onAuthStateChange_callback P s w).1 = Normal ()
    ∧ (loadUserProfile_resume P reply w).1 = Normal ()
    ∧ (effect_cleanup P w).1 = Normal ().

(** What a session-bearing event asks the row store, per revision. *)
Definition profile_request (table : string) (s : Session.t) : Request :=
  SelectSingle table "id" (AuthUser.id (Session.user s)).

(** [{ error }] for an answer of the identity provider: its message, or
    the fixed text when the call itself threw. *)
Definition converted (reply : Settled (option string)) : OpResult :=
  match reply with
  | Fulfilled None => None
  | Fulfilled (Some message) => Some message
  | Rejected _ => Some "An unexpected error occurred"
  end.

(** ** Helpers shared by the screens *)

From Stdlib Require DecimalString.

(** [`${n}`] for an integer. *)
Definition show (n : Z) : string :=
  DecimalString.NilZero.string_of_int (Z.to_int n).

(** [hay.includes(needle)] *)
Fixpoint includes (needle hay : string) : bool :=
  String.prefix needle hay
  || match hay with
     | EmptyString => false
     | String _ rest => includes needle rest
     end.

(** [Array.prototype.sort(cmp)] for a consistent comparator: the stable
    sort that puts [a] before [b] when [cmp a b < 0] and keeps the order
    of elements that compare equal. *)
Fixpoint js_insert {A} (cmp : A → A → Z) (x : A) (l : list A) : list A :=
  match l with
  | [] => [x]
  | y :: l' => if (cmp x y <=? 0)%Z then x :: y :: l'
               else y :: js_insert cmp x l'
  end.
Definition js_sort {A} (cmp : A → A → Z) (l : list A) : list A :=
  foldr (js_insert cmp) [] l.

(** [l.slice(-n)]: the last [n] elements. *)
Definition slice_last {A} (n : nat) (l : list A) : list A :=
  drop (length l - n) l.

(** [Math.floor((later - earlier) / unit)] on millisecond timestamps: both
    are integers, and for dates of this era the floored quotient of the
    two doubles is the floored integer quotient. *)
Definition floor_units (unit later earlier : Z) : Z :=
  ((later - earlier) / unit)%Z.

(** ** [calculateAge] (patients.tsx, the babies screen, [BabyCard]) *)
Module Age.

(** [now] and [birth] are given by their [getFullYear()] and [getMonth()]. *)
Definition ageInMonths (now_year now_month birth_year birth_month : Z) : Z :=
  ((now_year - birth_year) * 12 + (now_month - birth_month))%Z.

Definition calculateAge (now_year now_month birth_year birth_month : Z)
    : string :=
  let ageInMonths := ageInMonths now_year now_month birth_year birth_month in
  if (ageInMonths <? 12)%Z then show ageInMonths +:+ " months"
  else
    let years := (ageInMonths / 12)%Z in
    let months := Z.rem ageInMonths 12 in
    if (0 <? months)%Z then show years +:+ "y " +:+ show months +:+ "m"
    else show years +:+ " years".

End Age.

(** ** The vitals helpers of patients.tsx and growth.tsx *)
Section Vitals.
(** A JavaScript number as the screens use it: only its truthiness and the
    literal [0] matter here. *)
Context {number : Type} (truthy : number → bool) (zero : number).
(** [date.toLocaleDateString('en-US', {month: 'short', day: 'numeric'})] *)
Context (toLocaleDateString : Z → string).

Record VitalRecord := mkVitalRecord {
  weight : option number;
  height : option number;
  temperature : option number;
  recorded_at : Z }.                      (* new Date(recorded_at).getTime() *)

(** Newest first, oldest first. *)
Definition newest_first (a b : VitalRecord) : Z :=
  (recorded_at b - recorded_at a)%Z.
Definition oldest_first (a b : VitalRecord) : Z :=
  (recorded_at a - recorded_at b)%Z.

(** [baby.vital_records?.sort(newest first)[0]] of [loadPatients]. *)
Definition latest_vitals (vital_records : option (list VitalRecord))
    : option VitalRecord :=
  records ← vital_records; head (js_sort newest_first records).

(** [getVitalStatus] and [getVitalStatusColor] of patients.tsx. *)
Definition day_ms : Z := 1000 * 60 * 60 * 24.

Definition getVitalStatus (now : Z) (latest : option VitalRecord) : string :=
  match latest with
  | None => "No data"
  | Some v =>
      let daysSince := floor_units day_ms now (recorded_at v) in
      if (daysSince =? 0)%Z then "Today"
      else if (daysSince =? 1)%Z then "Yesterday"
      else if (daysSince <? 7)%Z then show daysSince +:+ " days ago"
      else "Needs update"
  end.

Definition getVitalStatusColor (now : Z) (latest : option VitalRecord)
    : string :=
  match latest with
  | None => "#ef4444"
  | Some v =>
      let daysSince := floor_units day_ms now (recorded_at v) in
      if (daysSince <=? 1)%Z then "#10b981"
      else if (daysSince <=? 7)%Z then "#f59e0b"
      else "#ef4444"
  end.

(** [x || 0] *)
Definition or_zero (x : option number) : number :=
  match x with
  | Some n => if truthy n then n else zero
  | None => zero
  end.
Definition is_truthy (x : option number) : bool :=
  match x with
  | Some n => truthy n
  | None => false
  end.

(** The chart input [getWeightData] and [getHeightData] build. *)
Record ChartData := mkChartData {
  labels : list string;
  dataset : list number }.

(** [weightRecords] / [heightRecords]: the records with a value in the
    column, oldest first, the last six of them. *)
Definition chart_records (column : VitalRecord → option number)
    (all : list VitalRecord) : list VitalRecord :=
  slice_last 6
    (js_sort oldest_first
       (filter (λ record, is_truthy (column record)) all)).

Definition chart_of (column : VitalRecord → option number)
    (vital_records : option (list VitalRecord)) : ChartData :=
  match vital_records with
  | None => mkChartData [] []
  | Some all =>
      let records := chart_records column all in
      let labels := (λ record, toLocaleDateString (recorded_at record))
                      <$> records in
      let data := (λ record, or_zero (column record)) <$> records in
      mkChartData (if (0 <? length labels)%nat then labels else ["No Data"])
                  (if (0 <? length data)%nat then data else [zero])
  end.

Definition getWeightData := chart_of weight.
Definition getHeightData := chart_of height.

(** [getLatestVitals] of growth.tsx: weight, height, lastUpdated. *)
Definition getLatestVitals (vital_records : option (list VitalRecord))
    : option number * option number * option Z :=
  match vital_records with
  | None | Some [] => (None, None, None)
  | Some records =>
      match head (js_sort newest_first records) with
      | Some latest =>
          (weight latest, height latest, Some (recorded_at latest))
      | None => (None, None, None)
      end
  end.

End Vitals.

Arguments mkVitalRecord {number}.
Arguments mkChartData {number}.

(** ** [filterPatients] (patients.tsx) *)
Section FilterPatients.
(** [String.prototype.trim] and [toLowerCase]; the patient type with its
    two name fields. *)
Context (trim toLowerCase : string → string).
Context {Patient : Type} (first_name last_name : Patient → string).

Definition full_name (patient : Patient) : string :=
  first_name patient +:+ " " +:+ last_name patient.

(** The value handed to [setFilteredPatients]. *)
Definition filterPatients (searchQuery : string) (patients : list Patient)
    : list Patient :=
  if bool_decide (trim searchQuery = "") then patients
  else filter
         (λ patient, includes (toLowerCase searchQuery)
                              (toLowerCase (full_name patient)))
         patients.

End FilterPatients.

(** ** The charts of the reports screen (part_003) *)
Module ReportCharts.

Record AgeGroups := mkAgeGroups {
  g_0_6m : nat; g_6m_1y : nat; g_1_2y : nat; g_2y_plus : nat }.

(** One baby counted; [None] is the [NaN] an unparsable [birth_date]
    gives. *)
Definition count_baby (groups : AgeGroups) (ageInMonths : option Z)
    : AgeGroups :=
  match ageInMonths with
  | Some a =>
      if (a <=? 6)%Z then
        mkAgeGroups (S (g_0_6m groups)) (g_6m_1y groups) (g_1_2y groups)
                    (g_2y_plus groups)
      else if (a <=? 12)%Z then
        mkAgeGroups (g_0_6m groups) (S (g_6m_1y groups)) (g_1_2y groups)
                    (g_2y_plus groups)
      else if (a <=? 24)%Z then
        mkAgeGroups (g_0_6m groups) (g_6m_1y groups) (S (g_1_2y groups))
                    (g_2y_plus groups)
      else
        mkAgeGroups (g_0_6m groups) (g_6m_1y groups) (g_1_2y groups)
                    (S (g_2y_plus groups))
  | None =>
      mkAgeGroups (g_0_6m groups) (g_6m_1y groups) (g_1_2y groups)
                  (S (g_2y_plus groups))
  end.

(** [babies?.forEach(...)] over the ages of the babies, in months. *)
Definition ageGroups (ages : list (option Z)) : AgeGroups :=
  foldl count_baby (mkAgeGroups 0 0 0 0) ages.

(** [ageInMonths <= m], false for [NaN]. *)
Definition aged_at_most (m : Z) (ageInMonths : option Z) : bool :=
  match ageInMonths with
  | Some a => (a <=? m)%Z
  | None => false
  end.

(** The [population] column of [ageDistribution]. *)
Definition ageDistribution (ages : list (option Z)) : list (string * nat) :=
  let g := ageGroups ages in
  [("0-6 months", g_0_6m g); ("6m-1 year", g_6m_1y g);
   ("1-2 years", g_1_2y g); ("2+ years", g_2y_plus g)].

(** [weeklyData[day]++] where [day] is [getDay()]: 0 to 6, or [None] for
    the [NaN] of an unparsable date, which leaves the seven counters
    alone. *)
Definition count_day (weeklyData : list nat) (day : option nat) : list nat :=
  match day with
  | Some d => alter S d weeklyData
  | None => weeklyData
  end.

(** What [getDay()] can give. *)
Definition valid_day (day : option nat) : bool :=
  match day with
  | Some d => (d <? 7)%nat
  | None => true
  end.

Definition weeklyData (days : list (option nat)) : list nat :=
  foldl count_day (replicate 7 0) days.

End ReportCharts.

(** ** The message inbox (part_002) *)
Module Inbox.

Definition minute_ms : Z := 1000 * 60.

(** [formatTime]; [toLocaleDateString] formats the date of older
    messages. *)
Definition formatTime (toLocaleDateString : Z → string) (now timestamp : Z)
    : string :=
  let diffInMinutes := floor_units minute_ms now timestamp in
  if (diffInMinutes <? 1)%Z then "Just now"
  else if (diffInMinutes <? 60)%Z then show diffInMinutes +:+ "m ago"
  else if (diffInMinutes <? 1440)%Z
  then show (diffInMinutes / 60)%Z +:+ "h ago"
  else toLocaleDateString timestamp.

(** [{ ...msg, is_read: true }] for the message with that id. *)
Definition mark (messageId : string) (msg : Row) : Row :=
  if bool_decide (msg !! "id" = Some (VStr messageId))
  then <["is_read" := VBool true]> msg
  else msg.

(** [markAsRead]: the new [messages] state and what is logged.  [reply] is
    how the awaited update settles; its [{ error }] is not looked at. *)
Definition markAsRead (messageId : string) (reply : Settled (option string))
    (messages : list Row) : list Row * option string :=
  match reply with
  | Fulfilled _ => (mark messageId <$> messages, None)
  | Rejected e => (messages, Some ("Error marking message as read: " +:+ e))
  end.

Definition unread (messages : list Row) : list Row :=
  filter (λ msg, msg !! "is_read" = Some (VBool false)) messages.

End Inbox.
(** ** The auth screens and the navigation shell *)

(** What a handler does to the screen around it. *)
Inductive UIEffect :=
| Alert (title message : string)
| RouterReplace (href : string)
| SetLoading (b : bool)
| SetEmailSent (b : bool).

(** A handler run: the effects shown so far, how it completed, and the
    world it left. *)
Definition Handled : Type := list UIEffect * Completion unit * World.

(** [src/app/(auth)/register.tsx] *)
Module RegisterScreen.

Record FormData := mkFormData {
  email : string;
  password : string;
  confirmPassword : string;
  firstName : string;
  lastName : string;
  phone : string;
  role : Role }.                           (* 'parent' as const *)

(** [handleRegister], given the [signUp] of the context.  A form field is
    the sequence of its code units, so [String.length] is its [.length]. *)
Definition handleRegister
    (signUp : string → string → PartialUser.t → M OpResult)
    (formData : FormData) (w : World) : Handled :=
  if bool_decide (email formData = "") || bool_decide (password formData = "")
     || bool_decide (firstName formData = "")
     || bool_decide (lastName formData = "")
  then ([Alert "Error" "Please fill in all required fields"], Normal (), w)
  else if bool_decide (password formData ≠ confirmPassword formData)
  then ([Alert "Error" "Passwords do not match"], Normal (), w)
  else if (String.length (password formData) <? 6)%nat
  then ([Alert "Error" "Password must be at least 6 characters"], Normal (), w)
  else
    match signUp (email formData) (password formData)
            (PartialUser.mk None None (Some (role formData))
               (Some (firstName formData)) (Some (lastName formData))
               (Some (phone formData)) None None) w with
    | (Throw e, w') => ([SetLoading true], Throw e, w')
    | (Normal result, w') =>
        let shown :=
          match result with
          | Some error =>
              if bool_decide (error = "")
              then [Alert "Success" "Account created successfully! Please sign in.";
                    RouterReplace "/(auth)/login"]
              else if includes "User already registered" error
                      || includes "user_already_exists" error
              then [RouterReplace "/(auth)/login"]
              else [Alert "Registration Failed" error]
          | None =>
              [Alert "Success" "Account created successfully! Please sign in.";
               RouterReplace "/(auth)/login"]
          end in
        (SetLoading true :: shown ++ [SetLoading false], Normal (), w')
    end.

(** The form passes the three checks of [handleRegister]. *)
Definition valid (formData : FormData) : Prop :=
  email formData ≠ "" ∧ password formData ≠ "" ∧ firstName formData ≠ ""
  ∧ lastName formData ≠ ""
  ∧ password formData = confirmPassword formData
  ∧ (6 ≤ String.length (password formData))%nat.

(** The sign-up request a valid form leads to under part_004. *)
Definition sent (formData : FormData) : Request :=
  SignUp (email formData) (password formData)
    (Some (mkSignUpData (Some (firstName formData))
                        (Some (lastName formData))
                        (Some (phone formData)) (role formData))).

End RegisterScreen.

(** [src/app/(auth)/forgot-password.tsx] *)
Module ForgotPasswordScreen.

Definition handleResetPassword
    (resetPasswordForEmail : string → M OpResult)
    (email : string) (w : World) : Handled :=
  if bool_decide (email = "")
  then ([Alert "Error" "Please enter your email address"], Normal (), w)
  else
    match resetPasswordForEmail email w with
    | (Throw e, w') => ([SetLoading true], Throw e, w')
    | (Normal result, w') =>
        let shown :=
          match result with
          | Some error =>
              if bool_decide (error = "") then [SetEmailSent true]
              else [Alert "Error" error]
          | None => [SetEmailSent true]
          end in
        (SetLoading true :: shown ++ [SetLoading false], Normal (), w')
    end.

End ForgotPasswordScreen.




(** [src/unnamed/part_001], the tab bar. *)
Module TabLayout.

Record Tab := mkTab { name : string; title : string }.

Definition getTabsForRole (user : option User.t) : list Tab :=
  match User.role <$> user with
  | Some admin =>
      [mkTab "index" "Dashboard"; mkTab "patients" "Patients";
       mkTab "staff" "Staff"; mkTab "appointments" "Appointments";
       mkTab "reports" "Reports"; mkTab "settings" "Settings"]
  | Some doctor =>
      [mkTab "index" "Dashboard"; mkTab "patients" "My Patients";
       mkTab "appointments" "Schedule"; mkTab "messages" "Messages";
       mkTab "reports" "Reports"]
  | Some staff =>
      [mkTab "index" "Dashboard"; mkTab "patients" "Patients";
       mkTab "appointments" "Appointments"; mkTab "tasks" "Tasks"]
  | Some parent | None =>
      [mkTab "index" "Home"; mkTab "babies" "My Babies";
       mkTab "appointments" "Appointments"; mkTab "messages" "Messages";
       mkTab "growth" "Growth"]
  end.

Definition tab_names (user : option User.t) : list string :=
  name <$> getTabsForRole user.

End TabLayout.


(** Sample vitals, in days since the epoch times [day_ms]. *)
Definition vitals_day (d : Z) (w : option Z) : @VitalRecord Z :=
  mkVitalRecord w None None (d * day_ms).
Definition sample_vitals : list (@VitalRecord Z) :=
  [vitals_day 3 (Some 4%Z); vitals_day 9 None; vitals_day 5 (Some 0%Z);
   vitals_day 7 (Some 5%Z)].
Definition sample_form : RegisterScreen.FormData :=
  RegisterScreen.mkFormData "a@b.com" "secret1" "secret1" "Ana" "Lopez" ""
                            parent.

(** * Theorems *)

(** ** The role-scoped reads *)

Section QueryLemmas.
Context (db : Database).

Lemma sorted_by_Permutation o (rows : list Row) : sorted_by o rows ≡ₚ rows.
Proof.
  destruct o as [[c [|]]|]; simpl; [| |done];
    apply merge_sort_Permutation.
Qed.

Lemma elem_of_execute (q : Query) (row : Row) :
  row ∈ execute db q ↔ satisfies q row ∧ row ∈ rows_of db (q_table q).
Proof.
  unfold execute. rewrite sorted_by_Permutation.
  apply list_elem_of_filter.
Qed.

Lemma length_execute (q : Query) :
  length (execute db q) = length (filter (satisfies q) (rows_of db (q_table q))).
Proof. unfold execute. by rewrite sorted_by_Permutation. Qed.

(** A query with an [eq] filter returns only rows holding that value. *)
Lemma execute_eq_filter (q : Query) (c : string) (v : Value) (row : Row) :
  FEq c v ∈ q_filters q → row ∈ execute db q → row !! c = Some v.
Proof.
  intros Hin [Hsat _]%elem_of_execute.
  unfold satisfies in Hsat. rewrite Forall_forall in Hsat.
  specialize (Hsat _ Hin). simpl in Hsat.
  by apply bool_decide_eq_true in Hsat.
Qed.

(** A query without filters returns its whole table. *)
Lemma execute_no_filter (q : Query) (row : Row) :
  q_filters q = [] → row ∈ execute db q ↔ row ∈ rows_of db (q_table q).
Proof.
  intros Hnil. rewrite elem_of_execute. unfold satisfies. rewrite Hnil.
  split; [by intros [_ ?] | intros ?; split; [constructor | done]].
Qed.

End QueryLemmas.

Lemma role_is_eval (u : User.t) (r : Role) :
  role_is (Some u) r = bool_decide (User.role u = r).
Proof.
  unfold role_is. simpl. apply bool_decide_ext.
  split; [by intros [= ->] | by intros ->].
Qed.

(** A read that always carries [eq(column, user.id)] is scoped by it. *)
Lemma scoped_by_eq column r (read : option User.t → Query) :
  (∀ u, User.role u = r →
        FEq column (VStr (User.id u)) ∈ q_filters (read (Some u))) →
  scoped_by column r read.
Proof.
  intros Hf db u row Hr Hin.
  eapply execute_eq_filter; [apply Hf, Hr | exact Hin].
Qed.

(** A read without filters returns its table. *)
Lemma unfiltered_for_no_filter who table (read : option User.t → Query) :
  (∀ user, who user = true →
           q_filters (read user) = [] ∧ q_table (read user) = table) →
  unfiltered_for who table read.
Proof.
  intros Hq db user row Hw. destruct (Hq user Hw) as [Hnil <-].
  by apply execute_no_filter.
Qed.

Ltac eval_roles Hr :=
  rewrite ?role_is_eval, ?Hr; simpl.

(** C1, as stated, fails: for the doctor [d1] the reports screen and the
    dashboard read baby [b2], which is assigned to another doctor, and
    both count two babies where one is assigned; the patients list shows
    the one. *)
Lemma reports_and_dashboard_ignore_doctor_scope :
  User.role doctor_d1 = doctor ∧
  baby_b2 ∈ execute clinic ReportsScreen.babies_query ∧
  baby_b2 ∈ execute clinic (DashboardScreen.babies_read (Some doctor_d1)) ∧
  baby_b2 ∈ execute clinic (BabiesScreen.loadBabies_query (Some doctor_d1)) ∧
  baby_b2 !! "assigned_doctor_id" = Some (VStr "d2") ∧
  baby_b2 !! "assigned_doctor_id" ≠ Some (VStr (User.id doctor_d1)) ∧
  ReportsScreen.totalPatients
    (ReportsScreen.loadReportData (Some doctor_d1)
       (answer clinic ReportsScreen.babies_query)
       (answer clinic (ReportsScreen.newPatients_query 0))
       (answer clinic (ReportsScreen.weeklyAppointments_query 0))
       ReportsScreen.no_stats).1 = 2 ∧
  DashboardScreen.totalBabies
    (DashboardScreen.loadDashboardData clinic (Some doctor_d1) 0 0) = 2 ∧
  PatientsScreen.loadPatients clinic (Some doctor_d1) = [baby_b1].
Proof.
  split; [reflexivity|].
  split; [apply (bool_decide_unpack _); vm_compute; exact I|].
  split; [apply (bool_decide_unpack _); vm_compute; exact I|].
  split; [apply (bool_decide_unpack _); vm_compute; exact I|].
  split; [reflexivity|]. split; [discriminate|].
  repeat split; vm_compute; reflexivity.
Qed.

(** C1, amended: which reads are narrowed, and which are not.
    - patients list: babies narrowed to [assigned_doctor_id = user.id] for
      a doctor, the whole table for every other role;
    - dashboard: a parent reads [parent_babies] and appointments with
      [parent_id = user.id]; parents and doctors read messages with
      [recipient_id = user.id]; admin, staff and doctor read the whole
      babies table;
    - reports: the whole babies table for every user;
    - babies screen: association rows with [parent_id = user.id] for a
      parent, the whole babies table otherwise;
    - appointments screen: [parent_id = user.id] for a parent,
      [doctor_id = user.id] for a doctor, everything for admin and staff;
    - inbox and growth screen: [recipient_id = user.id], and (parents
      only) [parent_id = user.id]. *)
Theorem role_scoping_per_screen :
  scoped_by "assigned_doctor_id" doctor PatientsScreen.loadPatients_query
  ∧ unfiltered_for (λ u, negb (role_is u doctor)) "babies"
      PatientsScreen.loadPatients_query
  ∧ scoped_by "parent_id" parent DashboardScreen.babies_read
  ∧ (∀ today tomorrow,
       scoped_by "parent_id" parent
         (DashboardScreen.appointments_read today tomorrow))
  ∧ (∀ r, scoped_by "recipient_id" r DashboardScreen.unread_messages_query)
  ∧ unfiltered_for (λ u, negb (role_is u parent)) "babies"
      DashboardScreen.babies_read
  ∧ unfiltered_for (λ _, true) "babies" (λ _, ReportsScreen.babies_query)
  ∧ scoped_by "parent_id" parent BabiesScreen.loadBabies_query
  ∧ unfiltered_for (λ u, negb (role_is u parent)) "babies"
      BabiesScreen.loadBabies_query
  ∧ scoped_by "parent_id" parent AppointmentsScreen.loadAppointments_query
  ∧ scoped_by "doctor_id" doctor AppointmentsScreen.loadAppointments_query
  ∧ unfiltered_for (λ u, negb (role_is u parent) && negb (role_is u doctor))
      "appointments" AppointmentsScreen.loadAppointments_query
  ∧ (∀ r, scoped_by "recipient_id" r MessagesScreen.loadMessages_query)
  ∧ (∀ u q, GrowthScreen.loadGrowthData_query (Some u) = Some q →
       User.role u = parent
       ∧ ∀ db row, row ∈ execute db q →
                   row !! "parent_id" = Some (VStr (User.id u))).
Proof.
  repeat apply conj.
  - apply scoped_by_eq. intros u Hr.
    unfold PatientsScreen.loadPatients_query. eval_roles Hr. constructor.
  - apply unfiltered_for_no_filter. intros user Hw.
    apply negb_true_iff in Hw.
    unfold PatientsScreen.loadPatients_query. by rewrite Hw.
  - apply scoped_by_eq. intros u Hr.
    unfold DashboardScreen.babies_read. eval_roles Hr. constructor.
  - intros today tomorrow. apply scoped_by_eq. intros u Hr.
    unfold DashboardScreen.appointments_read. eval_roles Hr. constructor.
  - intros r. apply scoped_by_eq. intros u _. simpl. constructor.
  - apply unfiltered_for_no_filter. intros user Hw.
    apply negb_true_iff in Hw.
    unfold DashboardScreen.babies_read. by rewrite Hw.
  - by apply unfiltered_for_no_filter.
  - apply scoped_by_eq. intros u Hr.
    unfold BabiesScreen.loadBabies_query. eval_roles Hr. constructor.
  - apply unfiltered_for_no_filter. intros user Hw.
    apply negb_true_iff in Hw.
    unfold BabiesScreen.loadBabies_query. by rewrite Hw.
  - apply scoped_by_eq. intros u Hr.
    unfold AppointmentsScreen.loadAppointments_query. eval_roles Hr.
    constructor.
  - apply scoped_by_eq. intros u Hr.
    unfold AppointmentsScreen.loadAppointments_query. eval_roles Hr.
    constructor.
  - apply unfiltered_for_no_filter. intros user Hw.
    apply andb_true_iff in Hw as [Hp Hd].
    apply negb_true_iff in Hp, Hd.
    unfold AppointmentsScreen.loadAppointments_query. by rewrite Hp, Hd.
  - intros r. apply scoped_by_eq. intros u _. simpl. constructor.
  - intros u q. unfold GrowthScreen.loadGrowthData_query.
    rewrite role_is_eval. case_bool_decide as Hr; [|discriminate].
    intros [= <-]. split; [exact Hr|]. intros db row.
    apply execute_eq_filter. simpl. constructor.
Qed.

Lemma role_scoping_per_screen_witness :
  User.role doctor_d1 = doctor ∧
  baby_b1 ∈ execute clinic (PatientsScreen.loadPatients_query (Some doctor_d1)) ∧
  baby_b1 !! "assigned_doctor_id" = Some (VStr (User.id doctor_d1)).
Proof.
  assert (Hin : baby_b1 ∈ execute clinic
                  (PatientsScreen.loadPatients_query (Some doctor_d1))).
  { apply (bool_decide_unpack _). vm_compute. exact I. }
  split; [reflexivity|]. split; [exact Hin|].
  apply (proj1 role_scoping_per_screen clinic doctor_d1 baby_b1);
    [reflexivity | exact Hin].
Defined.

(** ** The session manager *)

Ltac unfold_prog :=
  cbv beta iota zeta delta
    [step exec init effect_body getSession_then onAuthStateChange_callback
     loadUserProfile_resume effect_cleanup first_render initial_state
     Part004.provider Part004.effect_body Part004.getSession_then
     Part004.onAuthStateChange_callback Part004.loadUserProfile_resume
     Part004.effect_cleanup Part004.loadUserProfile
     Part004.signIn Part004.signUp Part004.signOut Part004.resetPasswordForEmail
     AuthContext.provider AuthContext.effect_body AuthContext.getSession_then
     AuthContext.onAuthStateChange_callback AuthContext.loadUserProfile_resume
     AuthContext.effect_cleanup AuthContext.loadUserProfile
     AuthContext.signIn AuthContext.signUp AuthContext.signOut
     mbind M_bind mret M_ret throw try_catch try_catch_finally when resume await
     setSession setUser setLoading mounted_current set_mounted_current
     console_error issue suspend_profile_fetch register_getSession set_subscribed
     with_state with_mounted with_subscribed with_getSession_pending
     with_profile_fetches with_next_ticket with_console with_requests
     session_user fmap option_fmap option_map found failure
     state mounted subscribed getSession_pending profile_fetches next_ticket
     console requests session user loading data error su_user su_error
     snd fst] in *.

Ltac destruct_world w :=
  let s := fresh "s" in let u := fresh "u" in let l := fresh "l" in
  let m := fresh "m" in let sub := fresh "sub" in let gp := fresh "gp" in
  let pf := fresh "pf" in let nt := fresh "nt" in let c := fresh "c" in
  let rq := fresh "rq" in
  destruct w as [[s u l] m sub gp pf nt c rq].

(** Case analysis on whether an event was enabled. *)
Ltac step_cases Hs :=
  repeat match type of Hs with
    | (if ?b then _ else _) = Some _ => destruct b; [|discriminate Hs]
    | match ?o with Some _ => _ | None => _ end = Some _ =>
        destruct o; [|discriminate Hs]
    end;
  injection Hs as <-.

(** C9: with no prior session ([getSession] resolves to [null], no
    notification), both revisions end in
    [{session: null, user: null, loading: false}] with nothing pending. *)
Theorem no_prior_session_final_state :
  (∃ w, run Part004.provider (init Part004.provider) [GetSessionResolved None]
        = Some w
        ∧ state w = mkAuthState None None false ∧ settled w)
  ∧ (∃ w, run AuthContext.provider (init AuthContext.provider)
            [GetSessionResolved None] = Some w
          ∧ state w = mkAuthState None None false ∧ settled w).
Proof.
  split; eexists; (split; [reflexivity|]); (split; [|split]); vm_compute;
    reflexivity.
Qed.

(** C10: outside any [AuthProvider] the accessor throws
    ['useAuth must be used within an AuthProvider']; under an
    [AuthProvider] it returns the value the provider publishes: the three
    cells and the operations. *)
Theorem useAuth_outside_and_inside :
  Part004Context.useAuth [] = inl "useAuth must be used within an AuthProvider"
  ∧ AuthContextContext.useAuth [] = inl "useAuth must be used within an AuthProvider"
  ∧ (∀ w enclosing,
       Part004Context.useAuth (Part004Context.AuthProvider w enclosing)
         = inr (Part004Context.value w)
       ∧ Part004Context.session (Part004Context.value w) = session (state w)
       ∧ Part004Context.user (Part004Context.value w) = user (state w)
       ∧ Part004Context.loading (Part004Context.value w) = loading (state w)
       ∧ Part004Context.signIn (Part004Context.value w) = Part004.signIn
       ∧ Part004Context.signUp (Part004Context.value w) = Part004.signUp
       ∧ Part004Context.resetPasswordForEmail (Part004Context.value w)
           = Part004.resetPasswordForEmail
       ∧ Part004Context.signOut (Part004Context.value w) = Part004.signOut)
  ∧ (∀ w enclosing,
       AuthContextContext.useAuth (AuthContextContext.AuthProvider w enclosing)
         = inr (AuthContextContext.value w)
       ∧ AuthContextContext.session (AuthContextContext.value w) = session (state w)
       ∧ AuthContextContext.user (AuthContextContext.value w) = user (state w)
       ∧ AuthContextContext.loading (AuthContextContext.value w) = loading (state w)
       ∧ AuthContextContext.signIn (AuthContextContext.value w) = AuthContext.signIn
       ∧ AuthContextContext.signUp (AuthContextContext.value w) = AuthContext.signUp
       ∧ AuthContextContext.signOut (AuthContextContext.value w) = AuthContext.signOut).
Proof.
  split; [reflexivity|]. split; [reflexivity|].
  split; intros w enclosing; repeat split.
Qed.

Lemma Part004_signIn_frame email password reply w :
  frame w (exec (Part004.signIn email password reply) w).
Proof. destruct reply as [[e|]|]; by destruct_world w. Qed.

Lemma Part004_signUp_frame email password userData reply w :
  frame w (exec (Part004.signUp email password userData reply) w).
Proof. destruct reply as [[[a|] [e|]]|]; by destruct_world w. Qed.

Lemma Part004_resetPasswordForEmail_frame email reply w :
  frame w (exec (Part004.resetPasswordForEmail email reply) w).
Proof. destruct reply as [[e|]|]; by destruct_world w. Qed.

Lemma Part004_signOut_frame reply w :
  frame w (exec (Part004.signOut reply) w).
Proof. destruct reply; by destruct_world w. Qed.

Lemma AuthContext_signIn_frame email password reply w :
  frame w (exec (AuthContext.signIn email password reply) w).
Proof. destruct reply as [[e|]|]; by destruct_world w. Qed.

Lemma AuthContext_signUp_frame email password userData reply insert_reply w :
  frame w (exec (AuthContext.signUp email password userData reply insert_reply) w).
Proof.
  destruct reply as [[[a|] [e|]]|]; destruct insert_reply as [[e'|]|];
    by destruct_world w.
Qed.

Lemma AuthContext_signOut_frame reply w :
  frame w (exec (AuthContext.signOut reply) w).
Proof. destruct reply; by destruct_world w. Qed.

(** C6: none of the operations ([signIn], [signUp],
    [resetPasswordForEmail], [signOut]; [AuthContext.tsx] has the three
    without the reset) changes [session], [user] or [loading], whatever
    the provider answers; a [signIn] the provider answers with an error
    message returns [{error: message}] and leaves the state as it was. *)
Theorem operations_preserve_AuthState :
  (∀ w email password reply,
     state (exec (Part004.signIn email password reply) w) = state w
     ∧ state (exec (AuthContext.signIn email password reply) w) = state w)
  ∧ (∀ w email password userData reply insert_reply,
     state (exec (Part004.signUp email password userData reply) w) = state w
     ∧ state (exec (AuthContext.signUp email password userData reply
                      insert_reply) w) = state w)
  ∧ (∀ w email reply,
     state (exec (Part004.resetPasswordForEmail email reply) w) = state w)
  ∧ (∀ w reply,
     state (exec (Part004.signOut reply) w) = state w
     ∧ state (exec (AuthContext.signOut reply) w) = state w)
  ∧ (∀ w email password message,
     let reply := Fulfilled (Some message) in
     (Part004.signIn email password reply w).1 = Normal (Some message)
     ∧ state (exec (Part004.signIn email password reply) w) = state w
     ∧ (AuthContext.signIn email password reply w).1 = Normal (Some message)
     ∧ state (exec (AuthContext.signIn email password reply) w) = state w).
Proof.
  split; [|split; [|split; [|split]]].
  - intros. split; [apply Part004_signIn_frame | apply AuthContext_signIn_frame].
  - intros. split; [apply Part004_signUp_frame | apply AuthContext_signUp_frame].
  - intros. apply Part004_resetPasswordForEmail_frame.
  - intros. split; [apply Part004_signOut_frame | apply AuthContext_signOut_frame].
  - intros w email password message reply. by destruct_world w.
Qed.

(** *** Sign-up and the profile row *)

(** part_004: [signUp] sends the sign-up request with the profile fields
    as metadata, [role] defaulting to [parent], then at most a timer; it
    never sends an insert. *)
Lemma Part004_signUp_requests email password userData reply w :
  let w' := exec (Part004.signUp email password userData reply) w in
  let sent :=
    SignUp email password
      (Some (mkSignUpData (PartialUser.first_name userData)
                          (PartialUser.last_name userData)
                          (PartialUser.phone userData)
                          (default parent (PartialUser.role userData)))) in
  (requests w' = sent :: requests w
   ∨ requests w' = SetTimeout 1000 :: sent :: requests w)
  ∧ (PartialUser.role userData = None →
     default parent (PartialUser.role userData) = parent).
Proof.
  split; [|by intros ->].
  destruct reply as [[[a|] [e|]]|]; destruct_world w; unfold_prog; auto.
Qed.

Lemma Part004_signUp_never_inserts email password userData reply w table row :
  Insert table row ∉ requests w →
  Insert table row ∉
    requests (exec (Part004.signUp email password userData reply) w).
Proof.
  intros Hw.
  destruct (Part004_signUp_requests email password userData reply w)
    as [[-> | ->] _]; rewrite !not_elem_of_cons; repeat split;
    (discriminate || exact Hw).
Qed.

(** C8 on [src/contexts/AuthContext.tsx]: a successful [signUp] there sends
    no metadata (so no role) to the provider and then inserts the profile
    row into [users] itself. *)
Theorem AuthContext_signUp_inserts_profile :
  AuthContext.signUp "a@b.com" "secret1" new_parent
    (Fulfilled (mkSignUpResponse (Some (AuthUser.mk "u1")) None))
    (Fulfilled None) first_render
  = (Normal None,
     with_requests
       (λ _, [Insert "users"
                (PartialUser.mk (Some "u1") (Some "a@b.com") None
                                (Some "Ana") (Some "Lopez") None None None);
              SignUp "a@b.com" "secret1" None])
       first_render).
Proof. reflexivity. Qed.

(** *** Teardown *)

Lemma Part004_unmounted_step w e w' :
  mounted w = false → step Part004.provider w e = Some w' →
  state w' = state w ∧ mounted w' = false.
Proof.
  intros Hm Hs. destruct_world w. simpl in Hm. subst m.
  destruct e as [[ss|] | [ss|] | t [[d [er|]]|er] | ]; unfold_prog;
    step_cases Hs; by split.
Qed.

Lemma Part004_unmounted_run es : ∀ w w',
  mounted w = false → run Part004.provider w es = Some w' →
  state w' = state w ∧ mounted w' = false.
Proof.
  induction es as [|e es IH]; intros w w' Hm Hrun; simpl in Hrun.
  - by injection Hrun as <-.
  - destruct (step Part004.provider w e) as [w1|] eqn:Hstep; [|discriminate].
    destruct (Part004_unmounted_step _ _ _ Hm Hstep) as [Hst Hm1].
    destruct (IH _ _ Hm1 Hrun) as [Hst' Hm']. split; [congruence | done].
Qed.

Lemma Part004_teardown_step w e w' :
  (subscribed w = false → mounted w = false) →
  step Part004.provider w e = Some w' →
  (subscribed w' = false → mounted w' = false).
Proof.
  intros Hk Hs. destruct_world w. simpl in Hk.
  destruct e as [[ss|] | [ss|] | t [[d [er|]]|er] | ]; unfold_prog;
    step_cases Hs; try done; destruct m; simpl; auto.
Qed.

Lemma Part004_teardown_run es : ∀ w w',
  (subscribed w = false → mounted w = false) →
  run Part004.provider w es = Some w' →
  (subscribed w' = false → mounted w' = false).
Proof.
  induction es as [|e es IH]; intros w w' Hk Hrun; simpl in Hrun.
  - by injection Hrun as <-.
  - destruct (step Part004.provider w e) as [w1|] eqn:Hstep; [|discriminate].
    eapply IH; [|exact Hrun]. by eapply Part004_teardown_step.
Qed.

(** part_004: once the cleanup has run, no continuation changes the cells. *)
Lemma Part004_quiet_after_teardown w es w' :
  reachable Part004.provider w → subscribed w = false →
  run Part004.provider w es = Some w' → state w' = state w.
Proof.
  intros [es0 Hreach] Hsub Hrun.
  assert (Hm : mounted w = false).
  { eapply (Part004_teardown_run es0); [|exact Hreach|exact Hsub].
    by vm_compute. }
  by destruct (Part004_unmounted_run es w w' Hm Hrun).
Qed.

(** The same for either revision: part_004 by its [mounted.current]
    checks, [src/contexts/AuthContext.tsx] because its setters are those
    of an unmounted component. *)
Lemma unmounted_step P w e w' :
  known P → mounted w = false → step P w e = Some w' →
  state w' = state w ∧ mounted w' = false.
Proof.
  intros HP Hm Hs. destruct_world w. simpl in Hm. subst m.
  destruct HP as [-> | ->];
    destruct e as [[ss|] | [ss|] | t [[d [er|]]|er] | ]; unfold_prog;
    step_cases Hs; by split.
Qed.

Lemma unmounted_run P es : known P → ∀ w w',
  mounted w = false → run P w es = Some w' →
  state w' = state w ∧ mounted w' = false.
Proof.
  intros HP. induction es as [|e es IH]; intros w w' Hm Hrun; simpl in Hrun.
  - by injection Hrun as <-.
  - destruct (step P w e) as [w1|] eqn:Hstep; [|discriminate].
    destruct (unmounted_step _ _ _ _ HP Hm Hstep) as [Hst Hm1].
    destruct (IH _ _ Hm1 Hrun) as [Hst' Hm']. split; [congruence | done].
Qed.

(** The cleanup leaves the cells alone, releases the subscription and
    leaves the component unmounted. *)
Lemma step_unmount P w w' :
  known P → step P w Unmount = Some w' →
  state w' = state w ∧ subscribed w' = false ∧ mounted w' = false
  ∧ getSession_pending w' = getSession_pending w
  ∧ profile_fetches w' = profile_fetches w.
Proof.
  intros HP Hs. destruct_world w.
  destruct HP as [-> | ->]; unfold_prog; step_cases Hs; done.
Qed.

Lemma teardown_step P w e w' :
  known P →
  (subscribed w = false → mounted w = false) →
  step P w e = Some w' →
  (subscribed w' = false → mounted w' = false).
Proof.
  intros HP Hk Hs. destruct_world w. simpl in Hk.
  destruct HP as [-> | ->];
    destruct e as [[ss|] | [ss|] | t [[d [er|]]|er] | ]; unfold_prog;
    step_cases Hs; try done; destruct m; simpl; auto.
Qed.

Lemma teardown_run P es : known P → ∀ w w',
  (subscribed w = false → mounted w = false) →
  run P w es = Some w' →
  (subscribed w' = false → mounted w' = false).
Proof.
  intros HP. induction es as [|e es IH]; intros w w' Hk Hrun; simpl in Hrun.
  - by injection Hrun as <-.
  - destruct (step P w e) as [w1|] eqn:Hstep; [|discriminate].
    eapply IH; [|exact Hrun]. by eapply teardown_step.
Qed.

(** C4: in both revisions, after teardown no continuation changes the
    published [AuthState].
    - The unmount handler itself leaves [session], [user] and [loading] as
      they are, releases the subscription and keeps what is in flight (the
      initial resolution, the profile fetches) in flight.
    - With the subscription released, no notification is delivered.
    - In any state a provider reaches in which the handler has run,
      whatever is still delivered afterwards, in any order and number,
      leaves [session], [user] and [loading] what they were at teardown.
    part_004 checks [mounted.current] before each setter call;
    [src/contexts/AuthContext.tsx] calls its setters unchecked, on a
    component that is unmounted by then. *)
Theorem quiet_after_teardown : ∀ P, known P →
  (∀ w w', step P w Unmount = Some w' →
     state w' = state w ∧ subscribed w' = false
     ∧ getSession_pending w' = getSession_pending w
     ∧ profile_fetches w' = profile_fetches w)
  ∧ (∀ w s, subscribed w = false → step P w (AuthStateChange s) = None)
  ∧ (∀ es0 w es w',
       run P (init P) es0 = Some w → subscribed w = false →
       run P w es = Some w' → state w' = state w).
Proof.
  intros P HP. split; [|split].
  - intros w w' Hs.
    destruct (step_unmount _ _ _ HP Hs) as (H1 & H2 & _ & H3 & H4). done.
  - intros w s Hsub. simpl. by rewrite Hsub.
  - intros es0 w es w' Hreach Hsub Hrun.
    assert (Hm : mounted w = false).
    { eapply (teardown_run P es0 HP); [|exact Hreach|exact Hsub].
      destruct HP as [-> | ->]; intros H; discriminate H. }
    by destruct (unmounted_run P es HP w w' Hm Hrun).
Qed.

Lemma quiet_after_teardown_witness :
  let P := AuthContext.provider in
  let w := default first_render (run P (init P) [Unmount]) in
  let es := [GetSessionResolved (Some session_u1);
             ProfileSettled 0 (found profile_u1)] in
  let w' := default first_render (run P w es) in
  run P (init P) [Unmount] = Some w ∧ subscribed w = false
  ∧ run P w es = Some w'
  ∧ state w' = state w
  ∧ state w' = mkAuthState None None true.
Proof.
  intros P w es w'.
  assert (Hreach : run P (init P) [Unmount] = Some w)
    by (vm_compute; reflexivity).
  assert (Hsub : subscribed w = false) by (vm_compute; reflexivity).
  assert (Hrun : run P w es = Some w') by (vm_compute; reflexivity).
  split; [exact Hreach|]. split; [exact Hsub|]. split; [exact Hrun|].
  split; [|vm_compute; reflexivity].
  destruct (quiet_after_teardown P (or_introl eq_refl)) as (_ & _ & H).
  exact (H [Unmount] w es w' Hreach Hsub Hrun).
Defined.

(** *** Single steps, for both revisions *)

Section Steps.
Context (P : Provider) (HP : known P).

(** A notification carrying a session publishes it and suspends one
    profile fetch under the next ticket. *)
Lemma step_notify_session w s :
  subscribed w = true → mounted w = true →
  ∃ w', step P w (AuthStateChange (Some s)) = Some w'
    ∧ state w' = mkAuthState (Some s) (user (state w)) (loading (state w))
    ∧ profile_fetches w'
      = <[next_ticket w := AuthUser.id (Session.user s)]> (profile_fetches w)
    ∧ next_ticket w' = S (next_ticket w)
    ∧ mounted w' = true ∧ subscribed w' = true.
Proof.
  intros Hsub Hm. destruct_world w. simpl in Hsub, Hm. subst.
  destruct HP as [-> | ->]; eexists; (split; [reflexivity|]); by unfold_prog.
Qed.

(** A profile answer carrying a row is published as [user], whichever
    fetch it belongs to. *)
Lemma step_settled_found w t userId p :
  mounted w = true → profile_fetches w !! t = Some userId →
  ∃ w', step P w (ProfileSettled t (found p)) = Some w'
    ∧ state w' = mkAuthState (session (state w)) (Some p) false
    ∧ profile_fetches w' = delete t (profile_fetches w)
    ∧ next_ticket w' = next_ticket w
    ∧ console w' = console w
    ∧ mounted w' = true ∧ subscribed w' = subscribed w.
Proof.
  intros Hm Hpf. destruct_world w. simpl in Hm, Hpf. subst.
  destruct HP as [-> | ->]; unfold_prog; rewrite Hpf;
    eexists; (split; [reflexivity|]); done.
Qed.

(** A failed profile fetch is logged and clears [loading]; [session] and
    [user] stay as they were. *)
Lemma step_settled_failure w t userId reply e :
  mounted w = true → profile_fetches w !! t = Some userId →
  failure reply = Some e →
  ∃ w', step P w (ProfileSettled t reply) = Some w'
    ∧ state w' = mkAuthState (session (state w)) (user (state w)) false
    ∧ console w' = ("Error loading user profile: " +:+ e) :: console w
    ∧ profile_fetches w' = delete t (profile_fetches w)
    ∧ next_ticket w' = next_ticket w
    ∧ mounted w' = true ∧ subscribed w' = subscribed w.
Proof.
  intros Hm Hpf Hfail. destruct_world w. simpl in Hm, Hpf. subst.
  destruct reply as [[d [er|]]|er]; simpl in Hfail; simplify_eq;
    destruct HP as [-> | ->]; unfold_prog; rewrite Hpf;
    eexists; (split; [reflexivity|]); done.
Qed.

End Steps.

Lemma failure_single (rows : list User.t) :
  length rows ≠ 1 →
  failure (Fulfilled (single rows))
  = Some "JSON object requested, multiple (or no) rows returned".
Proof. destruct rows as [|? [|? ?]]; simpl; [done | lia | done]. Qed.

(** *** Overlapping profile fetches *)

(** C2, as stated, fails: two notifications N1 (session of u1) then N2
    (session of u2); N2's fetch (ticket 1) resolves first and publishes
    u2's profile, N1's fetch (ticket 0) resolves later and replaces it: the
    final state pairs N2's session with N1's profile. *)
Lemma stale_profile_overwrites_newer :
  let trace2 := [AuthStateChange (Some session_u1);
                 AuthStateChange (Some session_u2);
                 ProfileSettled 1 (found profile_u2)] in
  let trace := (trace2 ++ [ProfileSettled 0 (found profile_u1)])%list in
  profile_u1 ≠ profile_u2
  ∧ state <$> run Part004.provider (init Part004.provider) trace2
    = Some (mkAuthState (Some session_u2) (Some profile_u2) false)
  ∧ state <$> run Part004.provider (init Part004.provider) trace
    = Some (mkAuthState (Some session_u2) (Some profile_u1) false)
  ∧ state <$> run AuthContext.provider (init AuthContext.provider) trace2
    = Some (mkAuthState (Some session_u2) (Some profile_u2) false)
  ∧ state <$> run AuthContext.provider (init AuthContext.provider) trace
    = Some (mkAuthState (Some session_u2) (Some profile_u1) false).
Proof.
  split; [discriminate|]. repeat split; vm_compute; reflexivity.
Qed.

(** C2, amended: the last completion wins.  From any live state, let N1
    and N2 start two fetches and N2's resolve first with a row [p2]: [user]
    is [p2].  When N1's fetch then resolves with a row [p1], the published
    [user] becomes [p1] under N2's session; when it fails instead, [user]
    stays [p2]. *)
Theorem last_completion_wins :
  ∀ P, known P → ∀ w s1 s2 p1 p2,
    subscribed w = true → mounted w = true →
    let t1 := next_ticket w in
    let t2 := S (next_ticket w) in
    ∃ w2,
      run P w [AuthStateChange (Some s1); AuthStateChange (Some s2);
               ProfileSettled t2 (found p2)] = Some w2
      ∧ session (state w2) = Some s2 ∧ user (state w2) = Some p2
      ∧ (∃ w', run P w2 [ProfileSettled t1 (found p1)] = Some w'
               ∧ session (state w') = Some s2 ∧ user (state w') = Some p1)
      ∧ (∀ reply e, failure reply = Some e →
           ∃ w', run P w2 [ProfileSettled t1 reply] = Some w'
                 ∧ session (state w') = Some s2 ∧ user (state w') = Some p2).
Proof.
  intros P HP w s1 s2 p1 p2 Hsub Hm t1 t2.
  destruct (step_notify_session P HP w s1 Hsub Hm)
    as (wa & Ha & Hsta & Hpfa & Hnta & Hma & Hsuba).
  destruct (step_notify_session P HP wa s2 Hsuba Hma)
    as (wb & Hb & Hstb & Hpfb & Hntb & Hmb & Hsubb).
  assert (Hl2 : profile_fetches wb !! t2 = Some (AuthUser.id (Session.user s2))).
  { rewrite Hpfb, Hnta. apply lookup_insert_eq. }
  destruct (step_settled_found P HP wb t2 _ p2 Hmb Hl2)
    as (w2 & H2 & Hst2 & Hpf2 & Hnt2 & _ & Hm2 & Hsub2).
  assert (Hl1 : profile_fetches w2 !! t1 = Some (AuthUser.id (Session.user s1))).
  { rewrite Hpf2, Hpfb, Hnta, Hpfa. subst t1 t2.
    rewrite lookup_delete_ne by lia. rewrite lookup_insert_ne by lia.
    apply lookup_insert_eq. }
  exists w2. split; [cbn [run]; by rewrite Ha, Hb, H2|].
  split; [by rewrite Hst2, Hstb|]. split; [by rewrite Hst2|]. split.
  - destruct (step_settled_found P HP w2 t1 _ p1 Hm2 Hl1)
      as (w' & H' & Hst' & _).
    exists w'. split; [cbn [run]; by rewrite H'|].
    by rewrite Hst', Hst2, Hstb.
  - intros reply e Hfail.
    destruct (step_settled_failure P HP w2 t1 _ reply e Hm2 Hl1 Hfail)
      as (w' & H' & Hst' & _).
    exists w'. split; [cbn [run]; by rewrite H'|].
    by rewrite Hst', Hst2, Hstb.
Qed.

Lemma last_completion_wins_witness :
  subscribed (init Part004.provider) = true
  ∧ mounted (init Part004.provider) = true
  ∧ ∃ w2,
      run Part004.provider (init Part004.provider)
        [AuthStateChange (Some session_u1); AuthStateChange (Some session_u2);
         ProfileSettled 1 (found profile_u2)] = Some w2
      ∧ ∃ w', run Part004.provider w2 [ProfileSettled 0 (found profile_u1)]
              = Some w'
              ∧ user (state w') = Some profile_u1.
Proof.
  split; [reflexivity|]. split; [reflexivity|].
  destruct (last_completion_wins Part004.provider (or_intror eq_refl)
              (init Part004.provider) session_u1 session_u2
              profile_u1 profile_u2 eq_refl eq_refl)
    as (w2 & Hrun & _ & _ & (w' & Hrun' & _ & Hu) & _).
  exists w2. split; [exact Hrun|]. exists w'. split; [exact Hrun' | exact Hu].
Defined.

(** *** Failed profile fetches *)

(** C5, as stated, fails where it says [user] is left null after an
    earlier profile was published: u1's profile is published, a second
    notification (a token refresh) starts a new fetch, that fetch fails
    with a network error; [user] is still u1's profile. *)
Lemma failed_fetch_keeps_previous_user :
  let trace := [AuthStateChange (Some session_u1);
                ProfileSettled 0 (found profile_u1);
                AuthStateChange (Some session_u1);
                ProfileSettled 1 (Rejected "Network request failed")] in
  failure (Rejected "Network request failed") = Some "Network request failed"
  ∧ (state <$> run Part004.provider (init Part004.provider) trace
     = Some (mkAuthState (Some session_u1) (Some profile_u1) false))
  ∧ (console <$> run Part004.provider (init Part004.provider) trace
     = Some ["Error loading user profile: Network request failed"])
  ∧ (state <$> run AuthContext.provider (init AuthContext.provider) trace
     = Some (mkAuthState (Some session_u1) (Some profile_u1) false))
  ∧ (console <$> run AuthContext.provider (init AuthContext.provider) trace
     = Some ["Error loading user profile: Network request failed"]).
Proof. repeat split; vm_compute; reflexivity. Qed.

(** C5, amended: in every state of a mounted provider, a profile fetch
    that fails (rejected promise, or an [error] in the answer as for zero
    or several rows) is logged and clears [loading]; [session] and [user]
    are left as they were, so [user] is null afterwards exactly when it was
    null before. *)
Theorem failed_fetch_effect :
  ∀ P, known P → ∀ w t userId reply e,
    mounted w = true → profile_fetches w !! t = Some userId →
    failure reply = Some e →
    ∃ w', step P w (ProfileSettled t reply) = Some w'
      ∧ console w' = ("Error loading user profile: " +:+ e) :: console w
      ∧ loading (state w') = false
      ∧ session (state w') = session (state w)
      ∧ user (state w') = user (state w)
      ∧ (user (state w') = None ↔ user (state w) = None).
Proof.
  intros P HP w t userId reply e Hm Hpf Hfail.
  destruct (step_settled_failure P HP w t userId reply e Hm Hpf Hfail)
    as (w' & Hstep & Hst & Hcon & _).
  exists w'. rewrite Hst, Hcon. by repeat split.
Qed.

Lemma failed_fetch_effect_witness :
  let w := exec (Part004.loadUserProfile "u1")
             (exec (setSession (Some session_u1)) (init Part004.provider)) in
  mounted w = true ∧ profile_fetches w !! 0 = Some "u1"
  ∧ failure (Fulfilled (single [])) 
    = Some "JSON object requested, multiple (or no) rows returned"
  ∧ ∃ w', step Part004.provider w (ProfileSettled 0 (Fulfilled (single [])))
          = Some w'
      ∧ loading (state w') = false
      ∧ session (state w') = Some session_u1
      ∧ user (state w') = None.
Proof.
  intros w.
  split; [reflexivity|]. split; [reflexivity|]. split; [reflexivity|].
  destruct (failed_fetch_effect Part004.provider (or_intror eq_refl) w 0 "u1"
              (Fulfilled (single [])) _ eq_refl eq_refl eq_refl)
    as (w' & Hstep & _ & Hl & Hs & Hu & _).
  exists w'. split; [exact Hstep|]. split; [exact Hl|].
  split; [exact Hs | exact Hu].
Defined.

(** *** [user != null] implies [session != null] *)

(** C3, as stated, fails: a sign-out notification overtakes the profile
    fetch of the previous session, whose row is then published with no
    session; and an initial resolution to null that arrives after a
    notification's profile was published clears only the session. *)
Lemma user_without_session_reachable :
  let stale_fetch := [AuthStateChange (Some session_u1);
                      AuthStateChange None;
                      ProfileSettled 0 (found profile_u1)] in
  let late_init := [AuthStateChange (Some session_u1);
                    ProfileSettled 0 (found profile_u1);
                    GetSessionResolved None] in
  (state <$> run Part004.provider (init Part004.provider) stale_fetch
   = Some (mkAuthState None (Some profile_u1) false))
  ∧ (state <$> run AuthContext.provider (init AuthContext.provider) stale_fetch
     = Some (mkAuthState None (Some profile_u1) false))
  ∧ (state <$> run Part004.provider (init Part004.provider) late_init
     = Some (mkAuthState None (Some profile_u1) false))
  ∧ (state <$> run AuthContext.provider (init AuthContext.provider) late_init
     = Some (mkAuthState None (Some profile_u1) false))
  ∧ ¬ consistent (mkAuthState None (Some profile_u1) false).
Proof.
  split; [vm_compute; reflexivity|]. split; [vm_compute; reflexivity|].
  split; [vm_compute; reflexivity|]. split; [vm_compute; reflexivity|].
  intros Hc. destruct Hc as [s Hs]; [by eexists | discriminate Hs].
Qed.

Lemma step_consistent P w e w' :
  known P → consistent (state w) → out_of_order w e = false →
  step P w e = Some w' → consistent (state w').
Proof.
  intros HP Hc Ho Hs. unfold consistent in *. destruct_world w.
  destruct e as [[ss|] | [ss|] | t [[d [er|]]|er] | ];
    simpl in Ho, Hc; destruct HP as [-> | ->]; unfold_prog; step_cases Hs;
    try destruct m; simpl; try done;
    try (intros _; by eexists).
  all: try (apply bool_decide_eq_false in Ho; intros Hu; by destruct Ho).
  all: intros Hd; destruct s; [by eexists|];
    rewrite (bool_decide_eq_true_2 _ Hd) in Ho;
    by rewrite bool_decide_eq_true_2 in Ho.
Qed.

Lemma run_in_order_run P es : ∀ w w',
  run_in_order P w es = Some w' → run P w es = Some w'.
Proof.
  induction es as [|e es IH]; intros w w' H; simpl in *; [done|].
  destruct (out_of_order w e); [discriminate|].
  destruct (step P w e); [by apply IH | discriminate].
Qed.

Lemma run_in_order_consistent P es : known P → ∀ w w',
  consistent (state w) → run_in_order P w es = Some w' →
  consistent (state w').
Proof.
  intros HP. induction es as [|e es IH]; intros w w' Hc H; simpl in H.
  - by injection H as <-.
  - destruct (out_of_order w e) eqn:Ho; [discriminate|].
    destruct (step P w e) as [w1|] eqn:Hs; [|discriminate].
    eapply IH; [|exact H]. by eapply step_consistent.
Qed.

(** C3, amended: along every run from the initial state in which no
    profile row arrives while no session is published and the initial
    resolution does not report null after a profile was published, every
    state reached has [user != null] imply [session != null], and
    [session == null] imply [user == null]. *)
Theorem user_implies_session_in_order :
  ∀ P, known P → ∀ es w,
    run_in_order P (init P) es = Some w →
    reachable P w
    ∧ (is_Some (user (state w)) → is_Some (session (state w)))
    ∧ (session (state w) = None → user (state w) = None).
Proof.
  intros P HP es w Hrun.
  assert (Hc : consistent (state w)).
  { eapply (run_in_order_consistent P es HP (init P)); [|exact Hrun].
    destruct HP as [-> | ->]; intros [u Hu]; discriminate Hu. }
  split; [exists es; by apply run_in_order_run|]. split; [exact Hc|].
  intros Hs. destruct (user (state w)) as [u|] eqn:Hu; [|done].
  destruct Hc as [s' Hs']; [by eexists | congruence].
Qed.

Lemma user_implies_session_in_order_witness :
  let es := [GetSessionResolved (Some session_u1);
             ProfileSettled 0 (found profile_u1);
             AuthStateChange None] in
  let w := default first_render
             (run_in_order Part004.provider (init Part004.provider) es) in
  run_in_order Part004.provider (init Part004.provider) es = Some w
  ∧ state w = mkAuthState None None false
  ∧ (is_Some (user (state w)) → is_Some (session (state w))).
Proof.
  intros es w.
  assert (Hrun : run_in_order Part004.provider (init Part004.provider) es
                 = Some w) by (vm_compute; reflexivity).
  split; [exact Hrun|]. split; [vm_compute; reflexivity|].
  exact (proj1 (proj2 (user_implies_session_in_order Part004.provider
                         (or_intror eq_refl) es w Hrun))).
Defined.

(** The restriction of [user_implies_session_in_order] is tight: on a
    mounted provider every out-of-order event leaves a profile published
    without a session. *)
Lemma out_of_order_breaks_consistency P w e w' :
  known P → mounted w = true → out_of_order w e = true →
  step P w e = Some w' → ¬ consistent (state w').
Proof.
  intros HP Hm Ho Hs. unfold consistent.
  destruct e as [[ss|] | [ss|] | t [r|er] | ]; cbn [out_of_order] in Ho;
    try discriminate Ho.
  - apply bool_decide_eq_true in Ho.
    assert (Hu : user (state w') = user (state w)
                 ∧ session (state w') = None).
    { destruct_world w. simpl in Hm. subst m.
      destruct HP as [-> | ->]; unfold_prog; step_cases Hs; done. }
    destruct Hu as [Hu Hsn]. rewrite Hu, Hsn. intros Hc.
    destruct (Hc Ho) as [x Hx]; discriminate Hx.
  - apply andb_true_iff in Ho as [Ho Hsn].
    apply andb_true_iff in Ho as [Herr Hd].
    apply bool_decide_eq_true in Hsn, Hd, Herr.
    assert (Hu : user (state w') = data r ∧ session (state w') = None).
    { destruct_world w. destruct r as [d er]. simpl in Hm, Herr, Hsn.
      subst m er s.
      destruct HP as [-> | ->]; unfold_prog; step_cases Hs; done. }
    destruct Hu as [Hu Hsn']. rewrite Hu, Hsn'. intros Hc.
    destruct (Hc Hd) as [x Hx]; discriminate Hx.
Qed.

(** *** The loading flag *)

Lemma step_loading_accounted P w e w' :
  known P → loading_accounted w → step P w e = Some w' →
  loading_accounted w'.
Proof.
  intros HP Hj Hs. unfold loading_accounted in *. destruct_world w.
  destruct e as [[ss|] | [ss|] | t [[d [er|]]|er] | ];
    simpl in Hj; destruct HP as [-> | ->]; unfold_prog; step_cases Hs;
    simpl; try destruct m; simpl; try discriminate; intros _;
    try (by left);
    try (right; right; by apply insert_non_empty).
  all: destruct Hj as [-> | [? | ?]]; auto; discriminate.
Qed.

Lemma run_loading_accounted P es : known P → ∀ w w',
  loading_accounted w → run P w es = Some w' → loading_accounted w'.
Proof.
  intros HP. induction es as [|e es IH]; intros w w' Hj H; simpl in H.
  - by injection H as <-.
  - destruct (step P w e) as [w1|] eqn:Hs; [|discriminate].
    eapply IH; [|exact H]. by eapply step_loading_accounted.
Qed.

Lemma step_loading_stays_false P w e w' :
  known P → step P w e = Some w' →
  loading (state w) = false → loading (state w') = false.
Proof.
  intros HP Hs Hl. destruct_world w. simpl in Hl. subst.
  destruct e as [[ss|] | [ss|] | t [[d [er|]]|er] | ];
    destruct HP as [-> | ->]; unfold_prog; step_cases Hs;
    simpl; try destruct m; done.
Qed.

Lemma run_loading_stays_false P es : known P → ∀ w w',
  run P w es = Some w' →
  loading (state w) = false → loading (state w') = false.
Proof.
  intros HP. induction es as [|e es IH]; intros w w' H Hl; simpl in H.
  - by injection H as <-.
  - destruct (step P w e) as [w1|] eqn:Hs; [|discriminate].
    eapply IH; [exact H|]. by eapply step_loading_stays_false.
Qed.

(** A null session, delivered to a mounted provider by a notification or
    as the initial resolution, clears the flag on the spot. *)
Lemma step_null_clears_loading P w w' :
  known P → mounted w = true →
  step P w (AuthStateChange None) = Some w'
  ∨ step P w (GetSessionResolved None) = Some w' →
  loading (state w') = false.
Proof.
  intros HP Hm Hs. destruct_world w. simpl in Hm. subst m.
  destruct HP as [-> | ->]; destruct Hs as [Hs | Hs]; unfold_prog;
    step_cases Hs; done.
Qed.

(** A session, delivered by a notification or as the initial resolution,
    leaves the flag alone and puts one profile fetch in flight, under the
    next ticket. *)
Lemma step_session_starts_fetch P w s w' :
  known P →
  step P w (AuthStateChange (Some s)) = Some w'
  ∨ step P w (GetSessionResolved (Some s)) = Some w' →
  profile_fetches w' !! next_ticket w = Some (AuthUser.id (Session.user s))
  ∧ loading (state w') = loading (state w)
  ∧ mounted w' = mounted w.
Proof.
  intros HP Hs. destruct_world w.
  destruct HP as [-> | ->]; destruct Hs as [Hs | Hs]; unfold_prog;
    step_cases Hs; destruct m; simpl; by rewrite lookup_insert_eq.
Qed.

(** A profile fetch that settles on a mounted provider, however it
    settles, clears the flag. *)
Lemma step_settle_clears_loading P w ticket reply w' :
  known P → mounted w = true →
  step P w (ProfileSettled ticket reply) = Some w' →
  loading (state w') = false.
Proof.
  intros HP Hm Hs. destruct_world w. simpl in Hm. subst m.
  destruct reply as [[d [er|]]|er];
    destruct HP as [-> | ->]; unfold_prog; step_cases Hs; done.
Qed.

(** C7, as stated, fails.
    - After teardown the flag is left as it is: a notification carries a
      session to a mounted provider, the provider is unmounted, and then
      the initial resolution and the notification's profile fetch settle.
      All asynchronous work has settled and [loading] is still true; by
      [unmounted_run] it stays so.
    - [getSession()] may reject; [.then] has no handler for that, so on a
      mounted provider with nothing in flight [loading] is true until a
      notification arrives. *)
Lemma loading_left_true :
  let es := [AuthStateChange (Some session_u1); Unmount;
             GetSessionResolved None;
             ProfileSettled 0 (found profile_u1)] in
  (let P := Part004.provider in
   state <$> run P (init P) es
   = Some (mkAuthState (Some session_u1) None true)
   ∧ getSession_pending <$> run P (init P) es = Some false
   ∧ profile_fetches <$> run P (init P) es = Some ∅
   ∧ mounted (getSession_rejected (init P)) = true
   ∧ settled (getSession_rejected (init P))
   ∧ loading (state (getSession_rejected (init P))) = true)
  ∧ (let P := AuthContext.provider in
     state <$> run P (init P) es
     = Some (mkAuthState (Some session_u1) None true)
     ∧ getSession_pending <$> run P (init P) es = Some false
     ∧ profile_fetches <$> run P (init P) es = Some ∅
     ∧ mounted (getSession_rejected (init P)) = true
     ∧ settled (getSession_rejected (init P))
     ∧ loading (state (getSession_rejected (init P))) = true).
Proof.
  split; (repeat split); vm_compute; reflexivity.
Qed.

(** C7, amended: in both revisions, for a provider that is mounted when
    the work settles,
    - a notification, or the fulfilled initial resolution, that carries no
      session leaves [loading] false at once;
    - one that carries a session leaves [loading] as it was and puts one
      profile fetch in flight;
    - whenever a profile fetch settles, fulfilled with or without a row,
      fulfilled with an error or rejected, [loading] is false afterwards;
    - once false, [loading] stays false whatever is delivered next;
    - so in every state reached from the initial one in which the initial
      resolution has been delivered and no fetch is in flight, [loading]
      is false;
    - the operations [signIn], [signUp], [signOut] and
      [resetPasswordForEmail] leave [loading] as it is;
    and on an unmounted provider every event leaves [loading] as it was. *)
Theorem loading_cleared_per_event :
  ∀ P, known P →
    (∀ w w', mounted w = true →
       step P w (AuthStateChange None) = Some w'
       ∨ step P w (GetSessionResolved None) = Some w' →
       loading (state w') = false)
    ∧ (∀ w s w',
         step P w (AuthStateChange (Some s)) = Some w'
         ∨ step P w (GetSessionResolved (Some s)) = Some w' →
         profile_fetches w' !! next_ticket w
         = Some (AuthUser.id (Session.user s))
         ∧ loading (state w') = loading (state w))
    ∧ (∀ w ticket reply w', mounted w = true →
         step P w (ProfileSettled ticket reply) = Some w' →
         loading (state w') = false)
    ∧ (∀ w es w', run P w es = Some w' →
         loading (state w) = false → loading (state w') = false)
    ∧ (∀ es w, run P (init P) es = Some w →
         mounted w = true → settled w → loading (state w) = false)
    ∧ (∀ w email password userData reply reply' reply'' reply_out,
         let l := loading (state w) in
         loading (state (exec (Part004.signIn email password reply) w)) = l
         ∧ loading (state (exec (Part004.signUp email password userData
                                   reply') w)) = l
         ∧ loading (state (exec (Part004.resetPasswordForEmail email reply)
                             w)) = l
         ∧ loading (state (exec (Part004.signOut reply_out) w)) = l
         ∧ loading (state (exec (AuthContext.signIn email password reply) w))
           = l
         ∧ loading (state (exec (AuthContext.signUp email password userData
                                   reply' reply'') w)) = l
         ∧ loading (state (exec (AuthContext.signOut reply_out) w)) = l)
    ∧ (∀ w e w', mounted w = false → step P w e = Some w' →
         loading (state w') = loading (state w)).
Proof.
  intros P HP. repeat apply conj.
  - intros w w' Hm Hs. by eapply step_null_clears_loading.
  - intros w s w' Hs.
    destruct (step_session_starts_fetch _ _ _ _ HP Hs) as (H1 & H2 & _).
    done.
  - intros w ticket reply w' Hm Hs. by eapply step_settle_clears_loading.
  - intros w es w'. by apply run_loading_stays_false.
  - intros es w Hrun Hm [Hgp Hpf].
    assert (Hj : loading_accounted w).
    { eapply (run_loading_accounted P es HP (init P)); [|exact Hrun].
      intros _. right. left. by destruct HP as [-> | ->]. }
    destruct (Hj Hm) as [? | [? | ?]]; [done | congruence | done].
  - intros w email password userData reply reply' reply'' reply_out l.
    subst l. repeat split; f_equal.
    + apply Part004_signIn_frame.
    + apply Part004_signUp_frame.
    + apply Part004_resetPasswordForEmail_frame.
    + apply Part004_signOut_frame.
    + apply AuthContext_signIn_frame.
    + apply AuthContext_signUp_frame.
    + apply AuthContext_signOut_frame.
  - intros w e w' Hm Hs.
    destruct (unmounted_step _ _ _ _ HP Hm Hs) as [Hst _]. by rewrite Hst.
Qed.

Lemma loading_cleared_per_event_witness :
  let P := Part004.provider in
  let w := default first_render
             (run P (init P) [AuthStateChange (Some session_u1)]) in
  let reply := Rejected "Network request failed" in
  let w' := default first_render (step P w (ProfileSettled 0 reply)) in
  mounted w = true ∧ loading (state w) = true
  ∧ step P w (ProfileSettled 0 reply) = Some w'
  ∧ loading (state w') = false.
Proof.
  intros P w reply w'.
  assert (Hm : mounted w = true) by (vm_compute; reflexivity).
  assert (Hs : step P w (ProfileSettled 0 reply) = Some w')
    by (vm_compute; reflexivity).
  split; [exact Hm|]. split; [vm_compute; reflexivity|]. split; [exact Hs|].
  destruct (loading_cleared_per_event P (or_intror eq_refl))
    as (_ & _ & H & _).
  exact (H w 0 reply w' Hm Hs).
Defined.

(** * Further properties of the session manager *)

Local Open Scope nat_scope.

(** ** The two revisions side by side *)

Lemma step_agree a b e :
  agree a b → is_Unmount e = false →
  agree_opt (step AuthContext.provider a e) (step Part004.provider b e).
Proof.
  intros (Hst & Hma & Hmb & Hsub & Hgp & Hpf & Hnt & Hc) He.
  destruct_world a. destruct_world b. simpl in *. simplify_eq.
  destruct e as [[ss|] | [ss|] | t [[d [er|]]|er] | ]; try discriminate He;
    unfold_prog; unfold agree_opt, agree;
    repeat match goal with
      | |- context [if ?x then _ else _] => destruct x
      | |- context [match ?o with Some _ => _ | None => _ end] =>
          destruct o
      end; simpl; done.
Qed.

(** X1: as long as the provider is not unmounted, the revision with the
    [mounted] guard and the one without it accept the same events and
    publish the same [session], [user] and [loading] after each of them,
    write the same console lines and have the same fetches in flight. *)
Theorem revisions_agree_while_mounted :
  ∀ es, forallb (λ e, negb (is_Unmount e)) es = true →
    agree_opt (run AuthContext.provider (init AuthContext.provider) es)
              (run Part004.provider (init Part004.provider) es).
Proof.
  assert (Hgen : ∀ es a b, agree a b →
            forallb (λ e, negb (is_Unmount e)) es = true →
            agree_opt (run AuthContext.provider a es)
                      (run Part004.provider b es)).
  { induction es as [|e es IH]; intros a b Hab Hes; simpl in *; [done|].
    apply andb_true_iff in Hes as [He Hes]. apply negb_true_iff in He.
    pose proof (step_agree a b e Hab He) as Hstep.
    destruct (step AuthContext.provider a e) as [a'|],
             (step Part004.provider b e) as [b'|]; simpl in Hstep;
      try done.
    by apply IH. }
  intros es Hes. apply Hgen; [|exact Hes].
  repeat split; reflexivity.
Qed.

Lemma revisions_agree_while_mounted_witness :
  let es := [AuthStateChange (Some session_u1);
             GetSessionResolved (Some session_u1);
             ProfileSettled 1 (Rejected "Network request failed");
             ProfileSettled 0 (found profile_u1);
             AuthStateChange None] in
  forallb (λ e, negb (is_Unmount e)) es = true
  ∧ agree_opt (run AuthContext.provider (init AuthContext.provider) es)
              (run Part004.provider (init Part004.provider) es).
Proof.
  intros es. split; [reflexivity|].
  exact (revisions_agree_while_mounted es eq_refl).
Defined.

(** ** What the callbacks send and publish *)

(** X2: a resolved or notified session makes each revision send exactly
    one query for the row whose [id] is the session's subject, to
    [user_profiles] (part_004) or [users] (contexts/AuthContext.tsx),
    whether or not the provider is still mounted; a null session and a
    settled profile fetch send nothing. *)
Theorem one_profile_request_per_session :
  ∀ w s reply,
    requests (exec (Part004.getSession_then (Some s)) w)
      = profile_request "user_profiles" s :: requests w
    ∧ requests (exec (Part004.onAuthStateChange_callback (Some s)) w)
      = profile_request "user_profiles" s :: requests w
    ∧ requests (exec (AuthContext.getSession_then (Some s)) w)
      = profile_request "users" s :: requests w
    ∧ requests (exec (AuthContext.onAuthStateChange_callback (Some s)) w)
      = profile_request "users" s :: requests w
    ∧ requests (exec (Part004.getSession_then None) w) = requests w
    ∧ requests (exec (Part004.onAuthStateChange_callback None) w) = requests w
    ∧ requests (exec (AuthContext.getSession_then None) w) = requests w
    ∧ requests (exec (AuthContext.onAuthStateChange_callback None) w)
      = requests w
    ∧ requests (exec (Part004.loadUserProfile_resume reply) w) = requests w
    ∧ requests (exec (AuthContext.loadUserProfile_resume reply) w)
      = requests w.
Proof.
  intros w s reply. destruct_world w. destruct s as [tok [uid]].
  destruct reply as [[d [er|]]|er]; destruct m; repeat split.
Qed.

(** X3: no callback of either revision lets an exception escape: a rejected
    or erroneous profile fetch ends in the [catch] block. *)
Theorem callbacks_never_throw :
  never_throws AuthContext.provider ∧ never_throws Part004.provider.
Proof.
  split; intros w s reply; destruct_world w;
    destruct s as [[tok [uid]]|]; destruct reply as [[d [er|]]|er];
    destruct m; repeat split.
Qed.

(** X4: [signIn], [resetPasswordForEmail] and part_004's [signUp] never
    throw: they return the provider's error message when it answers with
    one, the fixed text ['An unexpected error occurred'] when the call
    itself rejects, and [{}] otherwise.  [signOut] has no [try]: it throws
    exactly when the provider call rejects. *)
Theorem operations_convert_errors :
  ∀ w email password userData reply (sreply : Settled SignUpResponse)
    (oreply : Settled unit),
    (Part004.signIn email password reply w).1 = Normal (converted reply)
    ∧ (AuthContext.signIn email password reply w).1 = Normal (converted reply)
    ∧ (Part004.resetPasswordForEmail email reply w).1
      = Normal (converted reply)
    ∧ (Part004.signUp email password userData sreply w).1
      = Normal (match sreply with
                | Fulfilled r => su_error r
                | Rejected _ => Some "An unexpected error occurred"
                end)
    ∧ (Part004.signOut oreply w).1
      = match oreply with
        | Fulfilled _ => Normal ()
        | Rejected e => Throw e
        end
    ∧ (AuthContext.signOut oreply w).1
      = match oreply with
        | Fulfilled _ => Normal ()
        | Rejected e => Throw e
        end.
Proof.
  intros w email password userData reply sreply oreply. destruct_world w.
  destruct reply as [[e|]|e]; destruct sreply as [[[a|] [e'|]]|e'];
    destruct oreply as [[]|e'']; repeat split.
Qed.

(** X5: contexts/AuthContext.tsx's [signUp] can fail half-way.  When the
    provider has created the account and the row store refuses the profile
    insert with message [m], the result is [{error: m}] although both
    requests have been sent; the row it sends takes [id] and [email] from
    [userData] when the caller supplied them, and from the new account and
    the form otherwise. *)
Theorem AuthContext_signUp_partial_failure :
  ∀ w email password userData u m,
    let r := AuthContext.signUp email password userData
               (Fulfilled (mkSignUpResponse (Some u) None))
               (Fulfilled (Some m)) w in
    r.1 = Normal (Some m)
    ∧ ∃ row, requests r.2
             = Insert "users" row :: SignUp email password None :: requests w
        ∧ PartialUser.id row
          = Some (default (AuthUser.id u) (PartialUser.id userData))
        ∧ PartialUser.email row
          = Some (default email (PartialUser.email userData))
        ∧ PartialUser.role row = PartialUser.role userData.
Proof.
  intros w email password userData u m r. subst r. destruct_world w.
  split; [reflexivity|]. eexists. split; [reflexivity|].
  destruct userData as [[i|] [e|] ro fn ln ph ca ua]; repeat split;
    by destruct ro.
Qed.

Section LiveSteps.
Context (P : Provider) (HP : known P).

Lemma step_resolved_session w s :
  getSession_pending w = true → mounted w = true →
  ∃ w', step P w (GetSessionResolved (Some s)) = Some w'
    ∧ state w' = mkAuthState (Some s) (user (state w)) (loading (state w))
    ∧ profile_fetches w'
      = <[next_ticket w := AuthUser.id (Session.user s)]> (profile_fetches w)
    ∧ mounted w' = true.
Proof.
  intros Hgp Hm. destruct_world w. simpl in Hgp, Hm. subst.
  destruct HP as [-> | ->]; eexists; (split; [reflexivity|]); by unfold_prog.
Qed.

Lemma step_signed_out w :
  subscribed w = true → mounted w = true →
  ∃ w', step P w (AuthStateChange None) = Some w'
    ∧ state w' = mkAuthState None None false
    ∧ profile_fetches w' = profile_fetches w
    ∧ requests w' = requests w ∧ console w' = console w.
Proof.
  intros Hsub Hm. destruct_world w. simpl in Hsub, Hm. subst.
  destruct HP as [-> | ->]; eexists; (split; [reflexivity|]); by unfold_prog.
Qed.

End LiveSteps.

(** X6: on a mounted provider of either revision, a session [s] delivered by
    the initial resolution or by a notification, followed by its profile
    fetch answering with the row [p], ends in
    [{session: s, user: p, loading: false}]. *)
Theorem session_then_profile_authenticates :
  ∀ P, known P → ∀ w s p,
    mounted w = true →
    (getSession_pending w = true →
     state <$> run P w [GetSessionResolved (Some s);
                        ProfileSettled (next_ticket w) (found p)]
     = Some (mkAuthState (Some s) (Some p) false))
    ∧ (subscribed w = true →
       state <$> run P w [AuthStateChange (Some s);
                          ProfileSettled (next_ticket w) (found p)]
       = Some (mkAuthState (Some s) (Some p) false)).
Proof.
  intros P HP w s p Hm. split.
  - intros Hgp.
    destruct (step_resolved_session P HP w s Hgp Hm)
      as (w1 & H1 & Hst1 & Hpf1 & Hm1).
    assert (Hl : profile_fetches w1 !! next_ticket w
                 = Some (AuthUser.id (Session.user s)))
      by (rewrite Hpf1; apply lookup_insert_eq).
    destruct (step_settled_found P HP w1 _ _ p Hm1 Hl) as (w2 & H2 & Hst2 & _).
    cbn [run]. rewrite H1, H2. simpl. by rewrite Hst2, Hst1.
  - intros Hsub.
    destruct (step_notify_session P HP w s Hsub Hm)
      as (w1 & H1 & Hst1 & Hpf1 & _ & Hm1 & _).
    assert (Hl : profile_fetches w1 !! next_ticket w
                 = Some (AuthUser.id (Session.user s)))
      by (rewrite Hpf1; apply lookup_insert_eq).
    destruct (step_settled_found P HP w1 _ _ p Hm1 Hl) as (w2 & H2 & Hst2 & _).
    cbn [run]. rewrite H1, H2. simpl. by rewrite Hst2, Hst1.
Qed.

Lemma session_then_profile_authenticates_witness :
  mounted (init Part004.provider) = true
  ∧ getSession_pending (init Part004.provider) = true
  ∧ state <$> run Part004.provider (init Part004.provider)
      [GetSessionResolved (Some session_u1);
       ProfileSettled 0 (found profile_u1)]
    = Some (mkAuthState (Some session_u1) (Some profile_u1) false).
Proof.
  split; [reflexivity|]. split; [reflexivity|].
  exact (proj1 (session_then_profile_authenticates Part004.provider
                  (or_intror eq_refl) (init Part004.provider)
                  session_u1 profile_u1 eq_refl) eq_refl).
Defined.

(** X7: a notification without a session on a mounted provider publishes
    [{session: null, user: null, loading: false}] whatever was published
    before; it sends nothing and cancels nothing: the profile fetches in
    flight stay in flight. *)
Theorem sign_out_notification_resets :
  ∀ P, known P → ∀ w,
    subscribed w = true → mounted w = true →
    ∃ w', step P w (AuthStateChange None) = Some w'
      ∧ state w' = mkAuthState None None false
      ∧ profile_fetches w' = profile_fetches w
      ∧ requests w' = requests w.
Proof.
  intros P HP w Hsub Hm.
  destruct (step_signed_out P HP w Hsub Hm) as (w' & H & Hst & Hpf & Hrq & _).
  by exists w'.
Qed.

Lemma sign_out_notification_resets_witness :
  let w := default first_render
             (run Part004.provider (init Part004.provider)
                [AuthStateChange (Some session_u1);
                 ProfileSettled 0 (found profile_u1);
                 AuthStateChange (Some session_u2)]) in
  subscribed w = true ∧ mounted w = true
  ∧ user (state w) = Some profile_u1
  ∧ ∃ w', step Part004.provider w (AuthStateChange None) = Some w'
      ∧ state w' = mkAuthState None None false
      ∧ profile_fetches w' = profile_fetches w.
Proof.
  intros w.
  assert (Hsub : subscribed w = true) by (vm_compute; reflexivity).
  assert (Hm : mounted w = true) by (vm_compute; reflexivity).
  split; [exact Hsub|]. split; [exact Hm|].
  split; [vm_compute; reflexivity|].
  destruct (sign_out_notification_resets Part004.provider (or_intror eq_refl)
              w Hsub Hm) as (w' & H & Hst & Hpf & _).
  exists w'. by repeat split.
Defined.

(** * Properties of the screens *)

Lemma length_append (s1 s2 : string) :
  String.length (s1 +:+ s2) = String.length s1 + String.length s2.
Proof. induction s1 as [|c s1 IH]; simpl; [done | by rewrite IH]. Qed.

(** ** Sorting as the screens do it *)
Section JsSort.
Context {A : Type} (cmp : A → A → Z).
Local Abbreviation before := (λ a b, (cmp a b ≤ 0)%Z).
Hypothesis cmp_total : ∀ a b, (cmp a b ≤ 0)%Z ∨ (cmp b a ≤ 0)%Z.
Hypothesis cmp_trans :
  ∀ a b c, (cmp a b ≤ 0)%Z → (cmp b c ≤ 0)%Z → (cmp a c ≤ 0)%Z.

Lemma js_insert_Permutation x l : js_insert cmp x l ≡ₚ x :: l.
Proof.
  induction l as [|y l IH]; simpl; [done|].
  destruct (cmp x y <=? 0)%Z; [done|].
  rewrite IH. apply Permutation_swap.
Qed.

Lemma js_sort_Permutation l : js_sort cmp l ≡ₚ l.
Proof.
  induction l as [|x l IH]; simpl; [done|].
  unfold js_sort in *. simpl. by rewrite js_insert_Permutation, IH.
Qed.

Lemma js_insert_sorted x l :
  StronglySorted before l → StronglySorted before (js_insert cmp x l).
Proof.
  induction 1 as [|y l Hs IH Hy]; simpl.
  - repeat constructor.
  - destruct (Z.leb_spec (cmp x y) 0) as [Hxy | Hxy].
    + constructor; [by constructor|].
      constructor; [done|].
      eapply Forall_impl; [exact Hy|]. intros z Hz. by eapply cmp_trans.
    + constructor; [exact IH|].
      rewrite js_insert_Permutation. constructor; [|done].
      destruct (cmp_total y x); [done | lia].
Qed.

Lemma js_sort_sorted l : StronglySorted before (js_sort cmp l).
Proof.
  induction l as [|x l IH]; [constructor|].
  unfold js_sort in *. simpl. by apply js_insert_sorted.
Qed.

(** The first element after sorting comes before every element. *)
Lemma js_sort_head l x :
  head (js_sort cmp l) = Some x →
  x ∈ l ∧ ∀ y, y ∈ l → (cmp x y ≤ 0)%Z.
Proof.
  intros Hh. pose proof (js_sort_sorted l) as Hs.
  pose proof (js_sort_Permutation l) as Hp.
  destruct (js_sort cmp l) as [|z k]; simplify_eq/=.
  split; [rewrite <- Hp; by left|].
  intros y Hy. rewrite <- Hp in Hy.
  apply StronglySorted_inv in Hs as [_ Hall].
  apply elem_of_cons in Hy as [-> | Hy].
  - destruct (cmp_total x x); done.
  - rewrite Forall_forall in Hall. by apply Hall.
Qed.

End JsSort.

(** ** Vitals on the patients list *)
Section VitalsFacts.
Context {number : Type}.
Implicit Types (v r : @VitalRecord number).

Lemma newest_first_total v r :
  (newest_first v r ≤ 0)%Z ∨ (newest_first r v ≤ 0)%Z.
Proof. unfold newest_first. lia. Qed.

Lemma newest_first_trans a b c :
  (@newest_first number a b ≤ 0)%Z → (newest_first b c ≤ 0)%Z →
  (newest_first a c ≤ 0)%Z.
Proof. unfold newest_first. lia. Qed.

(** X8: [latest_vitals] of a patient is undefined exactly when the baby has
    no vital records (none embedded, or an empty array); otherwise it is
    one of the records and none of them was recorded later. *)
Theorem latest_vitals_is_newest :
  ∀ vital_records : option (list (@VitalRecord number)),
    (latest_vitals vital_records = None
     ↔ vital_records = None ∨ vital_records = Some [])
    ∧ ∀ v, latest_vitals vital_records = Some v →
        ∃ records, vital_records = Some records ∧ v ∈ records
          ∧ ∀ r, r ∈ records → (recorded_at r ≤ recorded_at v)%Z.
Proof.
  intros [records|]; simpl.
  - split.
    + split.
      * intros Hnone. right. f_equal.
        pose proof (js_sort_Permutation newest_first records) as Hp.
        destruct (js_sort newest_first records); [|discriminate].
        by apply Permutation_nil_l in Hp.
      * intros [? | [= ->]]; done.
    + intros v Hv. exists records. split; [done|].
      destruct (js_sort_head newest_first newest_first_total
                  newest_first_trans records v Hv) as [Hin Hmax].
      split; [done|]. intros r Hr. specialize (Hmax r Hr).
      unfold newest_first in Hmax. lia.
  - split; [split; auto|]. intros v [=].
Qed.

(** X9: the summary card of the growth screen ([getLatestVitals]) shows the
    same record the patients list takes as [latest_vitals]: its weight,
    height and time when the baby has records, three nulls when it has
    none. *)
Theorem getLatestVitals_is_latest :
  ∀ vital_records : option (list (@VitalRecord number)),
    getLatestVitals vital_records
    = match latest_vitals vital_records with
      | Some v => (weight v, height v, Some (recorded_at v))
      | None => (None, None, None)
      end
    ∧ (getLatestVitals vital_records = (None, None, None)
       ↔ vital_records = None ∨ vital_records = Some []).
Proof.
  intros [[|r rs]|]; simpl.
  - split; [done|]. split; auto.
  - pose proof (js_sort_Permutation newest_first (r :: rs)) as Hp.
    unfold js_sort in *. simpl in *.
    destruct (js_insert newest_first r (foldr (js_insert newest_first) [] rs))
      as [|v k] eqn:Hs.
    + by apply Permutation_nil_l in Hp.
    + simpl. split; [done|]. split; [discriminate|].
      intros [[=] | [=]].
  - split; [done|]. split; auto.
Qed.

End VitalsFacts.

(** ** Labels *)

Lemma days_ago_not_today s : s +:+ " days ago" ≠ "Today".
Proof.
  intros H. apply (f_equal String.length) in H.
  rewrite length_append in H. simpl in H. lia.
Qed.

Lemma days_ago_not_yesterday s : s +:+ " days ago" ≠ "Yesterday".
Proof.
  intros H. pose proof (f_equal String.length H) as Hl.
  rewrite length_append in Hl. simpl in Hl.
  destruct s; [|simpl in Hl; lia]. discriminate H.
Qed.

Lemma days_ago_not_needs_update s : s +:+ " days ago" ≠ "Needs update".
Proof.
  intros H. pose proof (f_equal String.length H) as Hl.
  rewrite length_append in Hl. simpl in Hl.
  destruct s as [|a [|b [|c [|d s]]]]; simpl in Hl; try lia.
  discriminate H.
Qed.

Section VitalStatus.
Context {number : Type}.

(** X10: how [getVitalStatus] and [getVitalStatusColor] read the age [d] of
    the latest record in whole days: the label is 'Today' exactly within
    the first 24 hours and 'Needs update' exactly from day 7 on, while the
    colour turns red only after day 7, so on day 7 the label asks for an
    update under an amber dot; a record dated in the future ([d < 0])
    is green and labelled with its negative day count. *)
Theorem vital_status_and_colour :
  ∀ (now : Z) (v : @VitalRecord number),
    let d := floor_units day_ms now (recorded_at v) in
    (getVitalStatus now (Some v) = "Today"
     ↔ (0 ≤ now - recorded_at v < day_ms)%Z)
    ∧ (getVitalStatus now (Some v) = "Needs update" ↔ (7 ≤ d)%Z)
    ∧ (getVitalStatusColor now (Some v) = "#ef4444" ↔ (7 < d)%Z)
    ∧ (getVitalStatusColor now (Some v) = "#10b981" ↔ (d ≤ 1)%Z)
    ∧ ((d < 0)%Z → getVitalStatus now (Some v) = show d +:+ " days ago").
Proof.
  intros now v d.
  assert (Hd : (d = 0 ↔ 0 ≤ now - recorded_at v < day_ms)%Z).
  { subst d. unfold floor_units, day_ms.
    split.
    - intros H0.
      pose proof (Z.div_mod (now - recorded_at v) (1000 * 60 * 60 * 24)
                    ltac:(lia)) as Hdm.
      pose proof (Z.mod_pos_bound (now - recorded_at v) (1000 * 60 * 60 * 24)
                    ltac:(lia)). lia.
    - intros H. by apply Z.div_small. }
  unfold getVitalStatus, getVitalStatusColor. fold d.
  destruct (Z.eqb_spec d 0) as [H0|H0];
    destruct (Z.eqb_spec d 1) as [H1|H1];
    destruct (Z.ltb_spec d 7) as [H7|H7];
    destruct (Z.leb_spec d 1) as [L1|L1];
    destruct (Z.leb_spec d 7) as [L7|L7]; try lia;
    repeat split; intros; try done; try lia;
    try (by apply Hd); try (exfalso; by apply Hd in H0);
    try (by exfalso; eapply days_ago_not_today);
    try (by exfalso; eapply days_ago_not_needs_update).
  all: match goal with
       | H : _ = "Today" |- _ => try discriminate H
       | _ => idtac
       end.
  all: try (exfalso; apply H0; by apply Hd).
Qed.

End VitalStatus.

(** X11: [calculateAge] shows the month count [n] between birth and now in
    one of three forms: ['n months'] below twelve (also for zero and for a
    birth date in the future, where [n] is negative), ['y years'] for a
    whole number of years, and ['yy mm'] with [m] between 1 and 11
    otherwise; in each form [n] is recovered as [12 * y + m]. *)
Theorem calculateAge_forms :
  ∀ now_year now_month birth_year birth_month : Z,
    let n := Age.ageInMonths now_year now_month birth_year birth_month in
    let shown := Age.calculateAge now_year now_month birth_year birth_month in
    ((n < 12)%Z ∧ shown = show n +:+ " months")
    ∨ (∃ y, (1 ≤ y)%Z ∧ n = (12 * y)%Z ∧ shown = show y +:+ " years")
    ∨ (∃ y m, (1 ≤ y)%Z ∧ (1 ≤ m ≤ 11)%Z ∧ n = (12 * y + m)%Z
              ∧ shown = show y +:+ "y " +:+ show m +:+ "m").
Proof.
  intros ny nm byr bm n shown. subst shown. unfold Age.calculateAge. fold n.
  destruct (Z.ltb_spec n 12) as [Hlt | Hge]; [by left|right].
  rewrite Z.rem_mod_nonneg by lia.
  pose proof (Z.div_mod n 12 ltac:(lia)) as Hdm.
  pose proof (Z.mod_pos_bound n 12 ltac:(lia)) as Hb.
  destruct (Z.ltb_spec 0 (n mod 12)) as [Hm | Hm].
  - right. exists (n / 12)%Z, (n mod 12)%Z. repeat split; try lia.
  - left. exists (n / 12)%Z. repeat split; try lia.
Qed.

(** ** Searching the patients list *)
Section FilterFacts.
Context (trim toLowerCase : string → string).
Context {Patient : Type} (first_name last_name : Patient → string).
Local Abbreviation filtered :=
  (filterPatients trim toLowerCase first_name last_name).

(** X12: [filterPatients] never invents or reorders patients:
    the result is a sublist of the list; a query that is blank after
    trimming keeps everybody; otherwise exactly the patients whose
    lower-cased full name contains the lower-cased query (untrimmed) are
    kept; and filtering the result again with the same query changes
    nothing. *)
Theorem filterPatients_sound :
  ∀ (searchQuery : string) (patients : list Patient),
    filtered searchQuery patients `sublist_of` patients
    ∧ (trim searchQuery = "" → filtered searchQuery patients = patients)
    ∧ (trim searchQuery ≠ "" →
       ∀ p, p ∈ filtered searchQuery patients
            ↔ p ∈ patients
              ∧ includes (toLowerCase searchQuery)
                  (toLowerCase (full_name first_name last_name p)) = true)
    ∧ filtered searchQuery (filtered searchQuery patients)
      = filtered searchQuery patients.
Proof.
  intros q ps. unfold filterPatients.
  case_bool_decide as Hq.
  - split; [done|]. split; [done|]. split; [intros Hne; by destruct Hne|done].
  - split; [apply sublist_filter|]. split; [done|]. split.
    + intros _ p. rewrite list_elem_of_filter, Is_true_true. tauto.
    + by apply list_filter_filter_l.
Qed.

End FilterFacts.

(** ** The growth charts *)

Lemma StronglySorted_weaken {A} (R1 R2 : A → A → Prop) (l : list A) :
  (∀ a b, R1 a b → R2 a b) → StronglySorted R1 l → StronglySorted R2 l.
Proof.
  intros HR. induction 1 as [|x l Hs IH Hx]; constructor; [done|].
  eapply Forall_impl; [exact Hx|]. intros y. apply HR.
Qed.

Section ChartFacts.
Context {number : Type} (truthy : number → bool) (zero : number).
Context (toLocaleDateString : Z → string).
Context (column : @VitalRecord number → option number).
Local Abbreviation has_value := (λ r, is_truthy truthy (column r)).
Local Abbreviation records_of := (chart_records truthy column).

Lemma oldest_first_total (a b : @VitalRecord number) :
  (oldest_first a b ≤ 0)%Z ∨ (oldest_first b a ≤ 0)%Z.
Proof. unfold oldest_first. lia. Qed.

Lemma oldest_first_trans (a b c : @VitalRecord number) :
  (oldest_first a b ≤ 0)%Z → (oldest_first b c ≤ 0)%Z →
  (oldest_first a c ≤ 0)%Z.
Proof. unfold oldest_first. lia. Qed.

(** The charted records are the tail of the sorted records with a value. *)
Lemma chart_records_basic (all : list (@VitalRecord number)) :
  length (records_of all) ≤ 6
  ∧ Forall (λ r, r ∈ all ∧ has_value r = true) (records_of all)
  ∧ ∃ older,
      js_sort oldest_first (filter has_value all)
      = (older ++ records_of all)%list
      ∧ older ++ records_of all ≡ₚ filter has_value all
      ∧ (6 ≤ length (filter has_value all) → length (records_of all) = 6).
Proof.
  unfold chart_records, slice_last.
  set (kept := filter has_value all).
  set (sorted := js_sort oldest_first kept).
  assert (Hperm : sorted ≡ₚ kept) by apply js_sort_Permutation.
  set (k := length sorted - 6).
  split; [rewrite length_drop; lia|]. split.
  - apply Forall_forall. intros r Hr.
    assert (Hin : r ∈ kept).
    { rewrite <- Hperm, <- (take_drop k sorted). apply elem_of_app. by right. }
    apply list_elem_of_filter in Hin as [Hv Hin].
    split; [done|]. by apply Is_true_true.
  - exists (take k sorted). split; [by rewrite take_drop|].
    split; [by rewrite take_drop|].
    intros Hlen. rewrite length_drop. subst k.
    assert (length sorted = length kept) as -> by (by rewrite Hperm). lia.
Qed.

(** X13: the records behind a growth chart are at most six (exactly six
    when six or more records have a value), each is a record of the baby
    with a (truthy) value in the charted column, in ascending order of
    [recorded_at]; they are the newest ones: the records with a value
    that are left out are all at least as old as every charted one. *)
Theorem chart_records_newest_six :
  ∀ all : list (@VitalRecord number),
    length (records_of all) ≤ 6
    ∧ Forall (λ r, r ∈ all ∧ has_value r = true) (records_of all)
    ∧ StronglySorted (λ a b, (recorded_at a ≤ recorded_at b)%Z)
                     (records_of all)
    ∧ ∃ older, older ++ records_of all ≡ₚ filter has_value all
        ∧ (6 ≤ length (filter has_value all) → length (records_of all) = 6)
        ∧ ∀ a b, a ∈ older → b ∈ records_of all →
                 (recorded_at a ≤ recorded_at b)%Z.
Proof.
  intros all.
  destruct (chart_records_basic all)
    as (Hlen & Hall & older & Hsplit & Hperm & Hsix).
  pose proof (js_sort_sorted oldest_first oldest_first_total
                oldest_first_trans (filter has_value all)) as Hsorted.
  rewrite Hsplit in Hsorted.
  apply StronglySorted_app in Hsorted as (Hcross & _ & Hrecs).
  split; [exact Hlen|]. split; [exact Hall|]. split.
  - eapply StronglySorted_weaken; [|exact Hrecs].
    intros a b. unfold oldest_first. lia.
  - exists older. split; [exact Hperm|]. split; [exact Hsix|].
    intros a b Ha Hb. specialize (Hcross a b Ha Hb).
    unfold oldest_first in Hcross. lia.
Qed.

(** X14: what [getWeightData] and [getHeightData] hand to the chart: nothing
    at all (no labels, no points) when no baby with vital records is
    selected; otherwise between one and six points with one label each,
    and the placeholder ['No Data'] with the single point [0] when no
    record has a value. *)
Theorem chart_shape :
  ∀ vital_records : option (list (@VitalRecord number)),
    let chart := chart_of truthy zero toLocaleDateString column vital_records in
    (vital_records = None → labels chart = [] ∧ dataset chart = [])
    ∧ ∀ all, vital_records = Some all →
        1 ≤ length (dataset chart) ≤ 6
        ∧ length (labels chart) = length (dataset chart)
        ∧ (filter has_value all = [] →
           labels chart = ["No Data"] ∧ dataset chart = [zero])
        ∧ (filter has_value all ≠ [] →
           dataset chart = (λ r, or_zero truthy zero (column r))
                             <$> records_of all
           ∧ Forall (λ x, truthy x = true) (dataset chart)).
Proof.
  intros [all|]; simpl; [|split; [done | intros ? [=]]].
  split; [intros [=]|]. intros ? [= <-].
  destruct (chart_records_basic all)
    as (Hlen & Hall & older & _ & Hperm & _).
  rewrite !length_fmap.
  destruct (records_of all) as [|r rs] eqn:Hrec; simpl.
  - split; [lia|]. split; [done|]. split; [done|].
    intros Hne. exfalso.
    unfold chart_records, slice_last in Hrec.
    pose proof (js_sort_Permutation oldest_first (filter has_value all)) as Hp.
    destruct (js_sort oldest_first (filter has_value all)) as [|x xs] eqn:Hs.
    + apply Permutation_nil_l in Hp. done.
    + apply (f_equal length) in Hrec. rewrite length_drop in Hrec.
      simpl in Hrec. lia.
  - simpl in Hlen. rewrite !length_fmap.
    split; [lia|]. split; [done|]. split.
    + intros Hnil. rewrite Hnil in Hperm.
      apply Permutation_nil_r in Hperm. by destruct older.
    + intros _. split; [done|].
      apply Forall_cons in Hall as [[_ Hr] Hrs].
      constructor.
      * unfold or_zero. unfold is_truthy in Hr.
        destruct (column r) as [x|]; [|done]. by rewrite Hr.
      * apply Forall_fmap. eapply Forall_impl; [exact Hrs|].
        intros r' [_ Hr']. simpl. unfold or_zero. unfold is_truthy in Hr'.
        destruct (column r') as [x|]; [|done]. by rewrite Hr'.
Qed.

End ChartFacts.

Lemma chart_shape_witness :
  let chart := getWeightData (λ n, negb (n =? 0)%Z) 0%Z show
                 (Some sample_vitals) in
  Some sample_vitals = Some sample_vitals
  ∧ 1 ≤ length (dataset chart) ≤ 6
  ∧ dataset chart = [4%Z; 5%Z].
Proof.
  intros chart.
  split; [reflexivity|].
  split; [|vm_compute; reflexivity].
  exact (proj1 (proj2 (chart_shape (λ n, negb (n =? 0)%Z) 0%Z show weight
                         (Some sample_vitals)) sample_vitals eq_refl)).
Defined.

(** ** The charts and counts of the reports screen *)

Lemma ageGroups_total_from (ages : list (option Z)) :
  ∀ g, let g' := foldl ReportCharts.count_baby g ages in
    ReportCharts.g_0_6m g' + ReportCharts.g_6m_1y g'
    + ReportCharts.g_1_2y g' + ReportCharts.g_2y_plus g'
    = ReportCharts.g_0_6m g + ReportCharts.g_6m_1y g
      + ReportCharts.g_1_2y g + ReportCharts.g_2y_plus g + length ages.
Proof.
  induction ages as [|a ages IH]; intros g; simpl; [lia|].
  rewrite IH. unfold ReportCharts.count_baby.
  destruct a as [a|]; simpl; [|lia].
  destruct (a <=? 6)%Z; simpl; [lia|].
  destruct (a <=? 12)%Z; simpl; [lia|].
  destruct (a <=? 24)%Z; simpl; lia.
Qed.

Lemma ageGroups_each_from (ages : list (option Z)) :
  ∀ g, let g' := foldl ReportCharts.count_baby g ages in
    ReportCharts.g_0_6m g'
    = ReportCharts.g_0_6m g
      + length (filter (λ a, ReportCharts.aged_at_most 6 a) ages)
    ∧ ReportCharts.g_6m_1y g'
      = ReportCharts.g_6m_1y g
        + length (filter (λ a, ReportCharts.aged_at_most 12 a
                               && negb (ReportCharts.aged_at_most 6 a)) ages)
    ∧ ReportCharts.g_1_2y g'
      = ReportCharts.g_1_2y g
        + length (filter (λ a, ReportCharts.aged_at_most 24 a
                               && negb (ReportCharts.aged_at_most 12 a)) ages)
    ∧ ReportCharts.g_2y_plus g'
      = ReportCharts.g_2y_plus g
        + length (filter (λ a, negb (ReportCharts.aged_at_most 24 a)) ages).
Proof.
  induction ages as [|a ages IH]; intros g; simpl; [lia|].
  destruct (IH (ReportCharts.count_baby g a)) as (H1 & H2 & H3 & H4).
  rewrite H1, H2, H3, H4. rewrite !filter_cons.
  unfold ReportCharts.count_baby, ReportCharts.aged_at_most.
  destruct a as [a|]; simpl.
  - destruct (Z.leb_spec a 6), (Z.leb_spec a 12), (Z.leb_spec a 24);
      try lia; simpl; repeat case_decide; simpl in *; try done; lia.
  - repeat case_decide; simpl in *; try done; lia.
Qed.

(** X15: the age distribution of the reports screen counts every baby
    exactly once: the four groups add up to the number of babies, and each
    group holds the babies of its range (up to 6, 7 to 12, 13 to 24, over
    24 months).  A baby whose [birth_date] does not parse is counted in
    '2+ years': [NaN] fails all three comparisons. *)
Theorem ageGroups_partition :
  ∀ ages : list (option Z),
    let g := ReportCharts.ageGroups ages in
    ReportCharts.g_0_6m g + ReportCharts.g_6m_1y g
    + ReportCharts.g_1_2y g + ReportCharts.g_2y_plus g = length ages
    ∧ ReportCharts.g_0_6m g
      = length (filter (λ a, ReportCharts.aged_at_most 6 a) ages)
    ∧ ReportCharts.g_6m_1y g
      = length (filter (λ a, ReportCharts.aged_at_most 12 a
                             && negb (ReportCharts.aged_at_most 6 a)) ages)
    ∧ ReportCharts.g_1_2y g
      = length (filter (λ a, ReportCharts.aged_at_most 24 a
                             && negb (ReportCharts.aged_at_most 12 a)) ages)
    ∧ ReportCharts.g_2y_plus g
      = length (filter (λ a, negb (ReportCharts.aged_at_most 24 a)) ages)
    ∧ ReportCharts.g_2y_plus (ReportCharts.ageGroups (None :: ages))
      = S (ReportCharts.g_2y_plus g).
Proof.
  intros ages g. subst g. unfold ReportCharts.ageGroups.
  split; [by rewrite ageGroups_total_from|].
  destruct (ageGroups_each_from ages (ReportCharts.mkAgeGroups 0 0 0 0))
    as (H1 & H2 & H3 & H4).
  split; [exact H1|]. split; [exact H2|]. split; [exact H3|].
  split; [exact H4|].
  destruct (ageGroups_each_from (None :: ages)
              (ReportCharts.mkAgeGroups 0 0 0 0)) as (_ & _ & _ & H4').
  rewrite H4', H4, filter_cons. simpl. done.
Qed.

Lemma count_day_length (days : list (option nat)) :
  ∀ acc, length (foldl ReportCharts.count_day acc days) = length acc.
Proof.
  induction days as [|d days IH]; intros acc; simpl; [done|].
  rewrite IH. destruct d; simpl; [apply length_alter | done].
Qed.

Lemma count_day_lookup (days : list (option nat)) (d : nat) :
  ∀ acc n, acc !! d = Some n →
    foldl ReportCharts.count_day acc days !! d
    = Some (n + length (filter (λ x, x = Some d) days)).
Proof.
  induction days as [|x days IH]; intros acc n Hacc; simpl.
  - by rewrite Nat.add_0_r.
  - rewrite filter_cons. destruct x as [x|]; simpl.
    + case_decide as Hx; simplify_eq/=.
      * rewrite (IH _ (S n)); [f_equal; lia|].
        by rewrite list_lookup_alter_eq, Hacc.
      * apply IH. rewrite list_lookup_alter_ne by congruence. done.
    + try case_decide; simplify_eq/=; by apply IH.
Qed.

(** X16: for appointments whose weekday ([getDay()], 0 to 6) is known or
    unparsable, the weekly chart always has seven counters, and the
    counter of weekday [d] is the number of appointments that fall on [d];
    appointments whose date does not parse are counted nowhere. *)
Theorem weeklyData_counts :
  ∀ days : list (option nat),
    forallb ReportCharts.valid_day days = true →
    length (ReportCharts.weeklyData days) = 7
    ∧ (∀ d, d < 7 →
         ReportCharts.weeklyData days !! d
         = Some (length (filter (λ x, x = Some d) days)))
    ∧ ReportCharts.weeklyData (None :: days) = ReportCharts.weeklyData days.
Proof.
  intros days _. unfold ReportCharts.weeklyData. split.
  - by rewrite count_day_length.
  - split; [|done]. intros d Hd.
    rewrite (count_day_lookup days d _ 0); [done|].
    apply lookup_replicate_2. lia.
Qed.

Lemma weeklyData_counts_witness :
  let days := [Some 1; None; Some 3; Some 1; Some 6] in
  forallb ReportCharts.valid_day days = true
  ∧ ReportCharts.weeklyData days = [0; 2; 0; 1; 0; 0; 1]
  ∧ length (ReportCharts.weeklyData days) = 7.
Proof.
  intros days. split; [reflexivity|]. split; [reflexivity|].
  exact (proj1 (weeklyData_counts days eq_refl)).
Defined.

Lemma satisfies_no_filter (q : Query) (rows : list Row) :
  q_filters q = [] → filter (satisfies q) rows = rows.
Proof.
  intros Hnil. induction rows as [|r rows IH]; [done|].
  rewrite filter_cons, IH. rewrite decide_True; [done|].
  unfold satisfies. rewrite Hnil. constructor.
Qed.

Lemma length_execute_le db (q : Query) :
  length (execute db q) ≤ length (rows_of db (q_table q)).
Proof. rewrite length_execute. apply length_filter. Qed.

Lemma length_execute_all db (q : Query) :
  q_filters q = [] →
  length (execute db q) = length (rows_of db (q_table q)).
Proof. intros H. by rewrite length_execute, satisfies_no_filter. Qed.

(** X17: the reports screen after [loadReportData], whose three queries
    are answered one by one.
    - The outcome never depends on who is signed in.
    - When all three are answered, 'Total Patients' and 'Active Monitoring'
      are the same number and nothing goes to the console; the [error] of
      an answer is never looked at, and an answer without [data] counts as
      zero.
    - When one of them is rejected, the stats stay what they were and one
      line goes to the console, whatever the other answers are.
    - An answer served from the tables [db] gives the size of the babies
      table as 'Total Patients', at most that size as 'New This Month' and
      at most the size of the appointments table as 'Appointments This
      Week', each whatever the other two answers hold. *)
Theorem report_counts :
  ∀ user previous babies newPatients weeklyAppointments,
    let load := ReportsScreen.loadReportData in
    load user babies newPatients weeklyAppointments previous
    = load None babies newPatients weeklyAppointments previous
    ∧ (∀ b n a,
         let out := load user (Fulfilled b) (Fulfilled n) (Fulfilled a)
                      previous in
         ReportsScreen.activeMonitoring out.1
         = ReportsScreen.totalPatients out.1
         ∧ out.2 = []
         ∧ out = load user
                   (Fulfilled (mkRowsResponse (rows_data b) None))
                   (Fulfilled (mkRowsResponse (rows_data n) None))
                   (Fulfilled (mkRowsResponse (rows_data a) None))
                   previous)
    ∧ (∀ message n a,
         ReportsScreen.totalPatients
           (load user (Fulfilled (mkRowsResponse None (Some message)))
              (Fulfilled n) (Fulfilled a) previous).1 = 0)
    ∧ (∀ e, load user (Rejected e) newPatients weeklyAppointments previous
            = (previous, ["Error loading report data: " +:+ e]))
    ∧ (∀ b e, load user (Fulfilled b) (Rejected e) weeklyAppointments previous
              = (previous, ["Error loading report data: " +:+ e]))
    ∧ (∀ b n e, load user (Fulfilled b) (Fulfilled n) (Rejected e) previous
                = (previous, ["Error loading report data: " +:+ e]))
    ∧ (∀ db n a,
         ReportsScreen.totalPatients
           (load user (answer db ReportsScreen.babies_query)
              (Fulfilled n) (Fulfilled a) previous).1
         = length (rows_of db "babies"))
    ∧ (∀ db startOfMonth b a,
         ReportsScreen.newPatientsThisMonth
           (load user (Fulfilled b)
              (answer db (ReportsScreen.newPatients_query startOfMonth))
              (Fulfilled a) previous).1
         ≤ length (rows_of db "babies"))
    ∧ (∀ db startOfWeek b n,
         ReportsScreen.appointmentsThisWeek
           (load user (Fulfilled b) (Fulfilled n)
              (answer db (ReportsScreen.weeklyAppointments_query startOfWeek))
              previous).1
         ≤ length (rows_of db "appointments")).
Proof.
  intros user previous babies newPatients weeklyAppointments load.
  subst load. repeat apply conj; try done.
  - intros db n a.
    apply (length_execute_all db ReportsScreen.babies_query eq_refl).
  - intros db som b a.
    apply (length_execute_le db (ReportsScreen.newPatients_query som)).
  - intros db sow b n.
    apply (length_execute_le db (ReportsScreen.weeklyAppointments_query sow)).
Qed.


(** ** The message inbox *)

(** X19: [formatTime] shows 'Just now' for anything younger than a minute
    (also for a timestamp in the future), whole minutes from 1 to 59,
    whole hours from 1 to 23, and the date from 24 hours on. *)
Theorem formatTime_forms :
  ∀ (toLocaleDateString : Z → string) (now timestamp : Z),
    let d := floor_units Inbox.minute_ms now timestamp in
    let shown := Inbox.formatTime toLocaleDateString now timestamp in
    ((d < 1)%Z ∧ shown = "Just now")
    ∨ ((1 ≤ d < 60)%Z ∧ shown = show d +:+ "m ago")
    ∨ (∃ h, (1 ≤ h ≤ 23)%Z ∧ (60 * h ≤ d < 60 * (h + 1))%Z
            ∧ shown = show h +:+ "h ago")
    ∨ ((1440 ≤ d)%Z ∧ shown = toLocaleDateString timestamp).
Proof.
  intros fmt now t d shown. subst shown. unfold Inbox.formatTime. fold d.
  destruct (Z.ltb_spec d 1); [by left|right].
  destruct (Z.ltb_spec d 60); [left; split; [lia|done]|right].
  destruct (Z.ltb_spec d 1440); [left|right; split; [lia|done]].
  exists (d / 60)%Z.
  pose proof (Z.div_mod d 60 ltac:(lia)).
  pose proof (Z.mod_pos_bound d 60 ltac:(lia)).
  repeat split; lia.
Qed.

Lemma mark_id messageId (msg : Row) :
  Inbox.mark messageId msg !! "id" = msg !! "id".
Proof.
  unfold Inbox.mark. case_bool_decide; [|done].
  by rewrite lookup_insert_ne.
Qed.

Lemma mark_idempotent messageId (msg : Row) :
  Inbox.mark messageId (Inbox.mark messageId msg) = Inbox.mark messageId msg.
Proof.
  unfold Inbox.mark at 1. rewrite mark_id.
  unfold Inbox.mark. case_bool_decide; [|done].
  by rewrite insert_insert_eq.
Qed.

Lemma mark_unread messageId (msg : Row) :
  Inbox.mark messageId msg !! "is_read" = Some (VBool false) →
  msg !! "is_read" = Some (VBool false)
  ∧ msg !! "id" ≠ Some (VStr messageId).
Proof.
  unfold Inbox.mark. case_bool_decide as Hid; [|done].
  rewrite lookup_insert_eq. discriminate.
Qed.

Lemma unread_mark_length messageId (messages : list Row) :
  length (Inbox.unread (Inbox.mark messageId <$> messages))
  ≤ length (Inbox.unread messages).
Proof.
  unfold Inbox.unread.
  induction messages as [|m ms IH]; [done|].
  rewrite fmap_cons, !filter_cons.
  repeat case_decide; cbn [length]; try lia.
  exfalso.
  match goal with
  | H : Inbox.mark _ _ !! _ = _ |- _ => apply mark_unread in H as [? _]
  end. done.
Qed.

(** X20: [markAsRead] rewrites the local list in place: same length and
    order, every message with that id marked read, every other message
    untouched, so the unread count never grows and no message with that
    id stays unread; doing it twice is the same as once.  It does so
    whenever the update call resolves, also when the row store answered
    with an error; only a rejected call leaves the list as it was and logs
    the error. *)
Theorem markAsRead_local_update :
  ∀ (messageId : string) (messages : list Row),
    (∀ answer,
       let messages' :=
         (Inbox.markAsRead messageId (Fulfilled answer) messages).1 in
       (Inbox.markAsRead messageId (Fulfilled answer) messages).2 = None
       ∧ length messages' = length messages
       ∧ (∀ i msg, messages !! i = Some msg →
            messages' !! i
            = Some (if bool_decide (msg !! "id" = Some (VStr messageId))
                    then <["is_read" := VBool true]> msg else msg))
       ∧ (∀ msg, msg ∈ Inbox.unread messages' →
            msg !! "id" ≠ Some (VStr messageId))
       ∧ length (Inbox.unread messages') ≤ length (Inbox.unread messages)
       ∧ (Inbox.markAsRead messageId (Fulfilled answer) messages').1
         = messages')
    ∧ (∀ e, Inbox.markAsRead messageId (Rejected e) messages
            = (messages, Some ("Error marking message as read: " +:+ e))).
Proof.
  intros messageId messages. split; [|done].
  intros answer messages'. subst messages'. simpl.
  split; [done|]. split; [apply length_fmap|]. split.
  { intros i msg Hi. rewrite list_lookup_fmap, Hi. done. }
  split.
  { intros msg Hin. unfold Inbox.unread in Hin.
    apply list_elem_of_filter in Hin as [Hu Hin].
    apply list_elem_of_fmap in Hin as (m0 & -> & _).
    rewrite mark_id. by apply mark_unread in Hu as [_ ?]. }
  split; [apply unread_mark_length|].
  rewrite <- list_fmap_compose. apply list_fmap_ext.
  intros i m _. simpl. apply mark_idempotent.
Qed.

(** ** Registration and password reset *)

Lemma register_valid_dec (formData : RegisterScreen.FormData) :
  RegisterScreen.valid formData
  ∨ (RegisterScreen.email formData = ""
     ∨ RegisterScreen.password formData = ""
     ∨ RegisterScreen.firstName formData = ""
     ∨ RegisterScreen.lastName formData = ""
     ∨ RegisterScreen.password formData
       ≠ RegisterScreen.confirmPassword formData
     ∨ String.length (RegisterScreen.password formData) < 6).
Proof.
  unfold RegisterScreen.valid.
  destruct (decide (RegisterScreen.email formData = "")); [right; by auto 10|].
  destruct (decide (RegisterScreen.password formData = "")); [right; by auto 10|].
  destruct (decide (RegisterScreen.firstName formData = "")); [right; by auto 10|].
  destruct (decide (RegisterScreen.lastName formData = "")); [right; by auto 10|].
  destruct (decide (RegisterScreen.password formData
                    = RegisterScreen.confirmPassword formData));
    [|right; by auto 10].
  destruct (decide (String.length (RegisterScreen.password formData) < 6));
    [right; by auto 10|].
  left. repeat split; try done. lia.
Qed.

Lemma register_guards (formData : RegisterScreen.FormData) :
  RegisterScreen.valid formData →
  (bool_decide (RegisterScreen.email formData = "")
   || bool_decide (RegisterScreen.password formData = "")
   || bool_decide (RegisterScreen.firstName formData = "")
   || bool_decide (RegisterScreen.lastName formData = "")) = false
  ∧ bool_decide (RegisterScreen.password formData
                 ≠ RegisterScreen.confirmPassword formData) = false
  ∧ (String.length (RegisterScreen.password formData) <? 6) = false.
Proof.
  intros (He & Hp & Hf & Hl & Hc & Hn).
  rewrite !bool_decide_eq_false_2 by done.
  split; [done|]. split; [by apply bool_decide_eq_false_2; intros []|].
  apply Nat.ltb_ge. lia.
Qed.

(** X21: [handleRegister] reaches the identity provider only with a form
    that has an email, a password, both names, matching passwords and a
    password of at least six characters; then it sends one sign-up request
    carrying the names, the phone and the form's role.  Any other form
    ends in a single 'Error' alert and leaves the world as it was. *)
Theorem register_sends_only_valid_forms :
  ∀ formData reply w,
    let run := RegisterScreen.handleRegister
                 (λ e p u, Part004.signUp e p u reply) formData w in
    (RegisterScreen.valid formData
     ∧ (requests run.2 = RegisterScreen.sent formData :: requests w
        ∨ requests run.2
          = SetTimeout 1000 :: RegisterScreen.sent formData :: requests w))
    ∨ (¬ RegisterScreen.valid formData
       ∧ run.2 = w ∧ run.1.2 = Normal ()
       ∧ ∃ message, run.1.1 = [Alert "Error" message]).
Proof.
  intros formData reply w run. subst run.
  destruct (register_valid_dec formData) as [Hv | Hinv].
  - left. split; [done|].
    destruct (register_guards formData Hv) as (Hg1 & Hg2 & Hg3).
    unfold RegisterScreen.handleRegister. rewrite Hg1, Hg2, Hg3.
    pose proof (Part004_signUp_requests (RegisterScreen.email formData)
                  (RegisterScreen.password formData)
                  (PartialUser.mk None None (Some (RegisterScreen.role formData))
                     (Some (RegisterScreen.firstName formData))
                     (Some (RegisterScreen.lastName formData))
                     (Some (RegisterScreen.phone formData)) None None)
                  reply w) as [Hreq _].
    unfold exec in Hreq. simpl in Hreq.
    destruct (Part004.signUp _ _ _ reply w) as [[r|e] w']; simpl; exact Hreq.
  - right. split.
    + unfold RegisterScreen.valid. intros (He & Hp & Hf & Hl & Hc & Hn).
      destruct Hinv as [? | [? | [? | [? | [? | ?]]]]]; try done. lia.
    + unfold RegisterScreen.handleRegister.
      repeat case_bool_decide; simpl; eauto.
      destruct (Nat.ltb_spec (String.length (RegisterScreen.password formData)) 6);
        simpl; [eauto|].
      exfalso. destruct Hinv as [? | [? | [? | [? | [? | ?]]]]]; try done. lia.
Qed.

(** X22: what [handleRegister] shows for a valid form under part_004's
    [signUp].  It always completes, switching [loading] on first and off
    last.  No error: the 'Success' alert and the login screen.  An error
    naming an existing account: the login screen with no alert.  A
    rejected call: 'Registration Failed' with the fixed text.  An error
    with an empty message counts as success. *)
Theorem register_outcomes :
  ∀ formData reply w,
    RegisterScreen.valid formData →
    let run := RegisterScreen.handleRegister
                 (λ e p u, Part004.signUp e p u reply) formData w in
    let success := [SetLoading true;
                    Alert "Success" "Account created successfully! Please sign in.";
                    RouterReplace "/(auth)/login"; SetLoading false] in
    run.1.2 = Normal ()
    ∧ head run.1.1 = Some (SetLoading true)
    ∧ last run.1.1 = Some (SetLoading false)
    ∧ (∀ u, reply = Fulfilled (mkSignUpResponse u None) → run.1.1 = success)
    ∧ (∀ u, reply = Fulfilled (mkSignUpResponse u (Some "")) →
            run.1.1 = success)
    ∧ (∀ u m, reply = Fulfilled (mkSignUpResponse u (Some m)) →
         includes "User already registered" m = true →
         run.1.1 = [SetLoading true; RouterReplace "/(auth)/login";
                    SetLoading false])
    ∧ (∀ e, reply = Rejected e →
         run.1.1 = [SetLoading true;
                    Alert "Registration Failed" "An unexpected error occurred";
                    SetLoading false]).
Proof.
  intros formData reply w Hv run success. subst run success.
  destruct (register_guards formData Hv) as (Hg1 & Hg2 & Hg3).
  unfold RegisterScreen.handleRegister. rewrite Hg1, Hg2, Hg3.
  destruct_world w.
  destruct reply as [[[a|] [msg|]]|e]; simpl.
  all: repeat match goal with
       | |- context [bool_decide (?x = "")] =>
           destruct (bool_decide_reflect (x = "")); subst
       | |- context [includes ?a ?b || includes ?c ?d] =>
           destruct (includes a b) eqn:?; destruct (includes c d) eqn:?
       end; simpl.
  all: repeat split; try done; intros; simplify_eq; try done;
    try congruence.
Qed.

Lemma register_outcomes_witness :
  let reply := Fulfilled (mkSignUpResponse None
                 (Some "AuthApiError: User already registered")) in
  let run := RegisterScreen.handleRegister
               (λ e p u, Part004.signUp e p u reply) sample_form
               first_render in
  RegisterScreen.valid sample_form
  ∧ run.1.1 = [SetLoading true; RouterReplace "/(auth)/login";
               SetLoading false].
Proof.
  intros reply run.
  assert (Hv : RegisterScreen.valid sample_form).
  { unfold RegisterScreen.valid, sample_form. simpl.
    repeat split; (discriminate || lia || reflexivity). }
  split; [exact Hv|].
  destruct (register_outcomes sample_form reply first_render Hv)
    as (_ & _ & _ & _ & _ & Hdup & _).
  exact (Hdup None _ eq_refl eq_refl).
Defined.

(** X23: [handleResetPassword] sends nothing for an empty email and shows
    one alert; otherwise it sends one reset request with the fixed
    redirect, never touches the published auth state, brackets [loading]
    and shows the 'check your email' view exactly when the operation
    returned no error (or an empty one). *)
Theorem reset_password_flow :
  ∀ email reply w,
    let run := ForgotPasswordScreen.handleResetPassword
                 (λ e, Part004.resetPasswordForEmail e reply) email w in
    run.1.2 = Normal ()
    ∧ state run.2 = state w
    ∧ (email = "" →
       run.2 = w
       ∧ run.1.1 = [Alert "Error" "Please enter your email address"])
    ∧ (email ≠ "" →
       requests run.2
       = ResetPasswordForEmail email
           "https://localhost:8081/(auth)/reset-password" :: requests w
       ∧ head run.1.1 = Some (SetLoading true)
       ∧ last run.1.1 = Some (SetLoading false)
       ∧ (SetEmailSent true ∈ run.1.1
          ↔ converted reply = None ∨ converted reply = Some ""))
    ∧ (∀ e, email ≠ "" → reply = Rejected e →
         run.1.1 = [SetLoading true;
                    Alert "Error" "An unexpected error occurred";
                    SetLoading false]).
Proof.
  intros email reply w run. subst run.
  unfold ForgotPasswordScreen.handleResetPassword.
  assert (Hno : ∀ x, SetEmailSent true ∈ [SetLoading true; Alert "Error" x;
                                          SetLoading false] → False).
  { intros x Hin.
    repeat (apply elem_of_cons in Hin as [Hin | Hin]; [discriminate Hin|]).
    by apply elem_of_nil in Hin. }
  assert (Hyes : SetEmailSent true ∈ [SetLoading true; SetEmailSent true;
                                      SetLoading false]).
  { apply elem_of_cons. right. apply elem_of_cons. by left. }
  case_bool_decide as He.
  - simpl. split; [done|]. split; [done|]. split; [done|].
    split; intros; done.
  - destruct_world w. destruct reply as [[msg|]|e]; simpl.
    + destruct (bool_decide_reflect (msg = "")) as [-> | Hm]; simpl.
      * split; [done|]. split; [done|]. split; [done|].
        split; [|intros; done]. intros _.
        split; [done|]. split; [done|]. split; [done|].
        split; [by right | done].
      * split; [done|]. split; [done|]. split; [done|].
        split; [|intros; done]. intros _.
        split; [done|]. split; [done|]. split; [done|].
        split; [intros Hin; by apply Hno in Hin|].
        intros [Hc | Hc]; [discriminate Hc | by injection Hc].
    + split; [done|]. split; [done|]. split; [done|].
      split; [|intros; done]. intros _.
      split; [done|]. split; [done|]. split; [done|].
      split; [by left | done].
    + split; [done|]. split; [done|]. split; [done|].
      split; [|intros; done]. intros _.
      split; [done|]. split; [done|]. split; [done|].
      split; [intros Hin; by apply Hno in Hin|].
      intros [Hc | Hc]; discriminate Hc.
Qed.

(** ** Navigation *)

(** X24: the tab bar.  Whoever is signed in (or nobody), the first tab is
    the dashboard, the appointments tab is there and no tab name repeats;
    a missing profile gets the parent's tabs; the patients tab is offered
    to admin, doctor and staff only, the reports tab to admin and doctor
    only, and the babies and growth tabs to parents (and missing profiles)
    only. *)
Theorem tabs_by_role :
  ∀ user : option User.t,
    let names := TabLayout.tab_names user in
    head names = Some "index"
    ∧ NoDup names
    ∧ "appointments" ∈ names
    ∧ (user = None → names = ["index"; "babies"; "appointments"; "messages";
                              "growth"])
    ∧ ("patients" ∈ names
       ↔ role_is user admin || role_is user doctor || role_is user staff = true)
    ∧ ("reports" ∈ names ↔ role_is user admin || role_is user doctor = true)
    ∧ ("babies" ∈ names ↔ role_is user parent = true ∨ user = None)
    ∧ ("growth" ∈ names ↔ "babies" ∈ names).
Proof.
  intros [u|]; [destruct u as [i e [] f l p c up]|]; simpl.
  all: split; [reflexivity|].
  all: split; [apply (bool_decide_unpack _); vm_compute; exact I|].
  all: split; [apply (bool_decide_unpack _); vm_compute; exact I|].
  all: split; [by intros|].
  all: unfold role_is; simpl.
  all: repeat split; intros H; try done; try (by left); try (by right);
    try (apply (bool_decide_unpack _); vm_compute; exact I);
    try (exfalso; revert H; apply (bool_decide_unpack _); vm_compute;
         exact I);
    try (destruct H as [H | H]; discriminate H).
Qed.





(** ** Teardown of part_004 *)

(** X27: once part_004's cleanup has run (the subscription is released),
    whatever still arrives, in any order, leaves the published [session],
    [user] and [loading] exactly as they were at teardown, and the
    [mounted] flag stays false. *)
Theorem Part004_frozen_after_teardown :
  ∀ es0 w es w',
    run Part004.provider (init Part004.provider) es0 = Some w →
    subscribed w = false →
    run Part004.provider w es = Some w' →
    state w' = state w ∧ mounted w' = false ∧ subscribed w' = false.
Proof.
  intros es0 w es w' Hreach Hsub Hrun.
  assert (Hm : mounted w = false).
  { eapply (Part004_teardown_run es0); [|exact Hreach|exact Hsub].
    intros H. discriminate H. }
  destruct (Part004_unmounted_run es w w' Hm Hrun) as [Hst Hm'].
  split; [exact Hst|]. split; [exact Hm'|].
  clear Hreach Hst Hm'. revert w Hsub Hm Hrun.
  induction es as [|e es IH]; intros w Hsub Hm Hrun; simpl in Hrun.
  - by injection Hrun as <-.
  - destruct (step Part004.provider w e) as [w1|] eqn:Hstep; [|discriminate].
    destruct (Part004_unmounted_step _ _ _ Hm Hstep) as [_ Hm1].
    apply (IH w1); [|exact Hm1|exact Hrun].
    clear IH Hrun. destruct_world w. simpl in Hsub, Hm. subst.
    destruct e as [[ss|] | [ss|] | t [[d [er|]]|er] | ];
      unfold_prog; try discriminate Hstep; step_cases Hstep; done.
Qed.

Lemma Part004_frozen_after_teardown_witness :
  let P := Part004.provider in
  let w := default first_render (run P (init P) [Unmount]) in
  let es := [GetSessionResolved (Some session_u1);
             ProfileSettled 0 (found profile_u1)] in
  let w' := default first_render (run P w es) in
  run P (init P) [Unmount] = Some w ∧ subscribed w = false
  ∧ run P w es = Some w'
  ∧ state w' = state w.
Proof.
  intros P w es w'.
  assert (Hreach : run P (init P) [Unmount] = Some w)
    by (vm_compute; reflexivity).
  assert (Hsub : subscribed w = false) by (vm_compute; reflexivity).
  assert (Hrun : run P w es = Some w') by (vm_compute; reflexivity).
  split; [exact Hreach|]. split; [exact Hsub|]. split; [exact Hrun|].
  exact (proj1 (Part004_frozen_after_teardown [Unmount] w es w'
                  Hreach Hsub Hrun)).
Defined.
